(** * expo-exit-app: the exit strategies of [ExitApp], embedded and verified

    The development follows [src/types.ts] (the data model) and
    [src/ExitApp.ts] (the class [ExitApp]).  The class talks to four ambient
    capabilities of the JavaScript runtime: [BackHandler.exitApp],
    the [Updates] module of expo-updates, [setTimeout] and
    [global.ErrorUtils].  They are gathered in a record [Runtime]; what a call
    does to the outside world (primitives invoked, timers queued, fatal errors
    delivered) is recorded in a [State] that is threaded through a small
    monad with exceptions and with promises that may stay pending. *)

From Stdlib Require Import String ZArith List Bool Lia.
Import ListNotations.
Local Open Scope string_scope.
Local Open Scope list_scope.

(** ** Data model ([src/types.ts]) *)

(** [enum ExitStrategy]. *)
Inductive ExitStrategy : Type :=
| BACK_HANDLER
| RELOAD
| FORCE_CRASH
| GRACEFUL.

Definition ExitStrategy_eqb (a b : ExitStrategy) : bool :=
  match a, b with
  | BACK_HANDLER, BACK_HANDLER
  | RELOAD, RELOAD
  | FORCE_CRASH, FORCE_CRASH
  | GRACEFUL, GRACEFUL => true
  | _, _ => false
  end.

(** [interface ExitOptions]: every key is optional; [None] is an absent key,
    [Some v] a key present with a value of its declared type. *)
Record ExitOptions : Type := mkExitOptions {
  errorMessage : option string;
  useReload : option bool;
  forceDelay : option Z
}.

(** [Required<ExitOptions>]: the same keys, all present. *)
Record RequiredExitOptions : Type := mkRequired {
  req_errorMessage : string;
  req_useReload : bool;
  req_forceDelay : Z
}.

(** [interface ExitResult]; [error?: string] is an optional key. *)
Record ExitResult : Type := mkExitResult {
  success : bool;
  strategy : ExitStrategy;
  error : option string
}.

(** ** The JavaScript runtime the class runs in *)

(** A value that was thrown (or a promise was rejected with).  The source
    only ever asks [error instanceof Error] and then reads [error.message];
    any other value (a string, a plain object, ...) is a [NonError]. *)
Inductive Thrown : Type :=
| ErrorInstance (message : string)
| NonError (description : string).

(** [error instanceof Error ? error.message : fallback]. *)
Definition messageOr (fallback : string) (e : Thrown) : string :=
  match e with
  | ErrorInstance message => message
  | NonError _ => fallback
  end.

(** What a synchronous call of a host function does. *)
Inductive CallOutcome : Type :=
| Returns
| Throws (e : Thrown).

(** How the promise returned by [Updates.reloadAsync()] settles, if ever. *)
Inductive Settlement : Type :=
| Fulfils
| Rejects (e : Thrown)
| NeverSettles.

(** [Updates.reloadAsync]: not a function (the stub installed when
    expo-updates is missing has [reloadAsync: null]), or a function that
    throws before returning, or one returning a promise. *)
Inductive ReloadAsync : Type :=
| ReloadNotCallable
| ReloadThrows (e : Thrown)
| ReloadPromise (p : Settlement).

Record UpdatesModule : Type := mkUpdates {
  isEnabled : bool;          (* truthiness of [Updates.isEnabled] *)
  reloadAsync : ReloadAsync
}.

(** The stub of lines 19-22: [{ isEnabled: false, reloadAsync: null }]. *)
Definition UpdatesStub : UpdatesModule :=
  {| isEnabled := false; reloadAsync := ReloadNotCallable |}.

(** [BackHandler] as imported from react-native: nullish, or an object whose
    [exitApp] is not a function, or one whose [exitApp] is a function. *)
Inductive BackHandlerModule : Type :=
| BackHandlerNullish
| ExitAppNotCallable
| ExitAppFunction (behaviour : CallOutcome).

(** [global]: undefined, or an object whose [ErrorUtils] is missing
    ([None]) or present; the boolean tells whether
    [typeof ErrorUtils.reportFatalError === 'function']. *)
Inductive GlobalObject : Type :=
| GlobalUndefined
| Global (ErrorUtils : option bool).

(** The places where the engine itself raises a [TypeError]. *)
Inductive TypeErrorSite : Type :=
| ReadExitAppOfNullish
| CallExitApp
| CallReloadAsync.

Record Runtime : Type := mkRuntime {
  BackHandler : BackHandlerModule;
  Updates : UpdatesModule;
  setTimeout : CallOutcome;
  global : GlobalObject;
  typeErrorMessage : TypeErrorSite -> string   (* engine specific wording *)
}.

(** A queued [setTimeout] callback.  The only closure the class ever queues
    is the crash callback of [exitWithForceCrash], which captures
    [errorMessage]. *)
Record Timer : Type := mkTimer {
  timer_delay : Z;
  timer_message : string
}.

(** A fatal error as the process sees it once a crash callback has run. *)
Inductive FatalEvent : Type :=
| ReportedFatal (message : string)     (* ErrorUtils.reportFatalError(new Error(m)) *)
| UncaughtError (message : string).    (* throw new Error(m) out of the timer *)

(** What has happened to the outside world so far. *)
Record State : Type := mkState {
  exitAppCalls : nat;        (* how often BackHandler.exitApp ran *)
  reloadCalls : nat;         (* how often Updates.reloadAsync ran *)
  timers : list Timer;       (* queued, not yet fired *)
  fatals : list FatalEvent   (* fatal errors delivered *)
}.

Definition initialState : State :=
  {| exitAppCalls := 0; reloadCalls := 0; timers := []; fatals := [] |}.

(** ** Computations: state, exceptions, pending promises *)

(** A computation returns a value, raises (an async function: rejects), or
    is left suspended at an [await] whose promise never settles. *)
Inductive Outcome (A : Type) : Type :=
| Returned (a : A) (s : State)
| Raised (e : Thrown) (s : State)
| Suspended (s : State).

Arguments Returned {A} a s.
Arguments Raised {A} e s.
Arguments Suspended {A} s.

Definition M (A : Type) : Type := State -> Outcome A.

Definition ret {A} (a : A) : M A := fun s => Returned a s.

Definition bind {A B} (c : M A) (k : A -> M B) : M B :=
  fun s =>
    match c s with
    | Returned a s' => k a s'
    | Raised e s' => Raised e s'
    | Suspended s' => Suspended s'
    end.


(** [try { body } catch (error) { handler }]. *)
Definition tryCatch {A} (body : M A) (handler : Thrown -> M A) : M A :=
  fun s =>
    match body s with
    | Returned a s' => Returned a s'
    | Raised e s' => handler e s'
    | Suspended s' => Suspended s'
    end.

Declare Scope js_scope.
Delimit Scope js_scope with js.
Notation "x <- c ;; k" := (bind c (fun x => k))
  (at level 61, c at next level, right associativity) : js_scope.
Notation "c ;; k" := (bind c (fun _ => k))
  (at level 61, right associativity) : js_scope.
Local Open Scope js_scope.

(** ** The class [ExitApp] ([src/ExitApp.ts]) *)

Module ExitApp.

(** [private static defaultOptions]. *)
Definition defaultOptions : RequiredExitOptions :=
  {| req_errorMessage := "App terminated";
     req_useReload := true;
     req_forceDelay := 100%Z |}.

(** [{ ...base, ...options }]: a key present in [options] wins. *)
Definition spread (base : RequiredExitOptions) (options : ExitOptions)
  : RequiredExitOptions :=
  {| req_errorMessage :=
       match errorMessage options with Some m => m | None => req_errorMessage base end;
     req_useReload :=
       match useReload options with Some b => b | None => req_useReload base end;
     req_forceDelay :=
       match forceDelay options with Some d => d | None => req_forceDelay base end |}.

(** A [Required<ExitOptions>] passed where an [ExitOptions] is expected. *)
Definition asOptions (config : RequiredExitOptions) : ExitOptions :=
  {| errorMessage := Some (req_errorMessage config);
     useReload := Some (req_useReload config);
     forceDelay := Some (req_forceDelay config) |}.

(** The default parameter [options: ExitOptions = {}]. *)
Definition emptyOptions : ExitOptions :=
  {| errorMessage := None; useReload := None; forceDelay := None |}.

Definition orEmpty (options : option ExitOptions) : ExitOptions :=
  match options with Some o => o | None => emptyOptions end.

Section Methods.

Variable rt : Runtime.

(** *** Host calls *)

(** [BackHandler.exitApp()]. *)
Definition callExitApp : M unit :=
  fun s =>
    match BackHandler rt with
    | BackHandlerNullish =>
        Raised (ErrorInstance (typeErrorMessage rt ReadExitAppOfNullish)) s
    | ExitAppNotCallable =>
        Raised (ErrorInstance (typeErrorMessage rt CallExitApp)) s
    | ExitAppFunction behaviour =>
        let s' := {| exitAppCalls := S (exitAppCalls s);
                     reloadCalls := reloadCalls s;
                     timers := timers s;
                     fatals := fatals s |} in
        match behaviour with
        | Returns => Returned tt s'
        | Throws e => Raised e s'
        end
    end.

(** [await Updates.reloadAsync()]. *)
Definition awaitReloadAsync : M unit :=
  fun s =>
    match reloadAsync (Updates rt) with
    | ReloadNotCallable =>
        Raised (ErrorInstance (typeErrorMessage rt CallReloadAsync)) s
    | ReloadThrows e =>
        Raised e {| exitAppCalls := exitAppCalls s;
                    reloadCalls := S (reloadCalls s);
                    timers := timers s;
                    fatals := fatals s |}
    | ReloadPromise p =>
        let s' := {| exitAppCalls := exitAppCalls s;
                     reloadCalls := S (reloadCalls s);
                     timers := timers s;
                     fatals := fatals s |} in
        match p with
        | Fulfils => Returned tt s'
        | Rejects e => Raised e s'
        | NeverSettles => Suspended s'
        end
    end.

(** [setTimeout(() => { ...errorMessage... }, delay)]: the callback is
    queued, not run. *)
Definition scheduleCrash (errorMessage : string) (delay : Z) : M unit :=
  fun s =>
    match setTimeout rt with
    | Returns =>
        Returned tt {| exitAppCalls := exitAppCalls s;
                       reloadCalls := reloadCalls s;
                       timers := timers s ++ [mkTimer delay errorMessage];
                       fatals := fatals s |}
    | Throws e => Raised e s
    end.

(** The body of the queued callback (lines 129-141). *)
Definition crashCallback (errorMessage : string) : FatalEvent :=
  match global rt with
  | Global (Some true) => ReportedFatal errorMessage
  | _ => UncaughtError errorMessage
  end.

(** A later turn of the event loop: the queued callbacks run, in the order
    they were queued (the class queues at most one per call; delays are
    kept in the queue but real time is not modelled). *)
Definition runTimers (s : State) : State :=
  {| exitAppCalls := exitAppCalls s;
     reloadCalls := reloadCalls s;
     timers := [];
     fatals := fatals s ++ map (fun t => crashCallback (timer_message t)) (timers s) |}.

(** *** Private handlers *)

Definition exitWithBackHandler : M ExitResult :=
  tryCatch
    (callExitApp ;;
     ret {| success := true; strategy := BACK_HANDLER; error := None |})
    (fun e =>
       ret {| success := false;
              strategy := BACK_HANDLER;
              error := Some (messageOr "BackHandler failed" e) |}).

Definition exitWithReload : M ExitResult :=
  tryCatch
    (if isEnabled (Updates rt) then
       awaitReloadAsync ;;
       ret {| success := true; strategy := RELOAD; error := None |}
     else
       ret {| success := false;
              strategy := RELOAD;
              error := Some "Updates not enabled" |})
    (fun e =>
       ret {| success := false;
              strategy := RELOAD;
              error := Some (messageOr "Reload failed" e) |}).

Definition exitWithForceCrash (errorMessage : string) (delay : Z) : M ExitResult :=
  tryCatch
    (scheduleCrash errorMessage delay ;;
     ret {| success := true; strategy := FORCE_CRASH; error := None |})
    (fun e =>
       ret {| success := false;
              strategy := FORCE_CRASH;
              error := Some (messageOr "Force crash failed" e) |}).

(** The early [return]s of the source become the branches that do not
    continue with [fallback]. *)
Definition exitGracefully (config : RequiredExitOptions) : M ExitResult :=
  let fallback : M ExitResult :=
    backHandlerResult <- exitWithBackHandler ;;
    if success backHandlerResult then ret backHandlerResult
    else exitWithForceCrash (req_errorMessage config) (req_forceDelay config) in
  if req_useReload config then
    reloadResult <- exitWithReload ;;
    if success reloadResult then ret reloadResult else fallback
  else fallback.

(** *** Public entry points *)

(** The [switch] of [exitWithStrategy] (lines 52-65). *)
Definition dispatch (strategy : ExitStrategy) (config : RequiredExitOptions)
  : M ExitResult :=
  match strategy with
  | BACK_HANDLER => exitWithBackHandler
  | RELOAD => exitWithReload
  | FORCE_CRASH =>
      exitWithForceCrash (req_errorMessage config) (req_forceDelay config)
  | GRACEFUL => exitGracefully config
  end.

(** The [try { ... } catch (error) { ... }] around that switch
    (lines 51 and 66-72). *)
Definition containErrors (strategy : ExitStrategy) (body : M ExitResult)
  : M ExitResult :=
  tryCatch body
    (fun e =>
       ret {| success := false;
              strategy := strategy;
              error := Some (messageOr "Unknown error" e) |}).

Definition exitWithStrategy (strategy : ExitStrategy)
  (options : option ExitOptions) : M ExitResult :=
  let config := spread defaultOptions (orEmpty options) in
  containErrors strategy (dispatch strategy config).

Definition exit (options : option ExitOptions) : M ExitResult :=
  let config := spread defaultOptions (orEmpty options) in
  exitWithStrategy GRACEFUL (Some (asOptions config)).

(** *** Capability probes *)

(** [typeof BackHandler?.exitApp === 'function']. *)
Definition isBackHandlerSupported : bool :=
  match BackHandler rt with
  | ExitAppFunction _ => true
  | BackHandlerNullish | ExitAppNotCallable => false
  end.

(** [Updates.isEnabled && typeof Updates.reloadAsync === 'function']. *)
Definition isReloadSupported : bool :=
  isEnabled (Updates rt) &&
  match reloadAsync (Updates rt) with
  | ReloadNotCallable => false
  | ReloadThrows _ | ReloadPromise _ => true
  end.

Definition getSupportedStrategies : list ExitStrategy :=
  let strategies := [FORCE_CRASH] in
  let strategies :=
    if isBackHandlerSupported then strategies ++ [BACK_HANDLER] else strategies in
  let strategies :=
    if isReloadSupported then strategies ++ [RELOAD] else strategies in
  strategies ++ [GRACEFUL].

End Methods.

End ExitApp.

(** ** Vocabulary of the statements *)

(** The three strategies that invoke a primitive themselves. *)
Definition isLeaf (strategy : ExitStrategy) : bool :=
  negb (ExitStrategy_eqb strategy GRACEFUL).

(** [error] is a present key exactly on failed results. *)
Definition errorIffFailed (r : ExitResult) : Prop :=
  (exists reason, error r = Some reason) <-> success r = false.

(** The awaited promise of [Updates.reloadAsync()] settles. *)
Definition reloadSettles (rt : Runtime) : Prop :=
  reloadAsync (Updates rt) <> ReloadPromise NeverSettles.

(** A result that one of the methods of the class hands back. *)
Inductive Produces (rt : Runtime) (r : ExitResult) : Prop :=
| produced_by_exitWithBackHandler s s' :
    ExitApp.exitWithBackHandler rt s = Returned r s' -> Produces rt r
| produced_by_exitWithReload s s' :
    ExitApp.exitWithReload rt s = Returned r s' -> Produces rt r
| produced_by_exitWithForceCrash message delay s s' :
    ExitApp.exitWithForceCrash rt message delay s = Returned r s' -> Produces rt r
| produced_by_exitGracefully config s s' :
    ExitApp.exitGracefully rt config s = Returned r s' -> Produces rt r
| produced_by_exitWithStrategy strategy options s s' :
    ExitApp.exitWithStrategy rt strategy options s = Returned r s' -> Produces rt r
| produced_by_exit options s s' :
    ExitApp.exit rt options s = Returned r s' -> Produces rt r.

(** The reload step of the fallback chain did not end the chain from state
    [s]: it was skipped, or it ran and handed back a failure, leaving the
    state [s1]. *)
Definition reloadStepFallsThrough
  (rt : Runtime) (config : RequiredExitOptions) (s s1 : State) : Prop :=
  (req_useReload config = false /\ s1 = s)
  \/ (req_useReload config = true
      /\ exists r, ExitApp.exitWithReload rt s = Returned r s1 /\ success r = false).

(** The result [r] and the state [s'] are those handed back by the
    handler of the strategy that [r] is tagged with, run as the last step
    of the chain started in [s]: the reload handler, run first and
    successful; or the back-handler handler, successful, after the reload
    step fell through; or the force-crash handler, after the reload step
    fell through and the back-handler handler failed. *)
Definition executedLeaf
  (rt : Runtime) (config : RequiredExitOptions) (s : State)
  (r : ExitResult) (s' : State) : Prop :=
  match strategy r with
  | RELOAD =>
      req_useReload config = true
      /\ ExitApp.exitWithReload rt s = Returned r s'
      /\ success r = true
  | BACK_HANDLER =>
      exists s1,
        reloadStepFallsThrough rt config s s1
        /\ ExitApp.exitWithBackHandler rt s1 = Returned r s'
        /\ success r = true
  | FORCE_CRASH =>
      exists s1 b s2,
        reloadStepFallsThrough rt config s s1
        /\ ExitApp.exitWithBackHandler rt s1 = Returned b s2
        /\ success b = false
        /\ ExitApp.exitWithForceCrash rt (req_errorMessage config)
             (req_forceDelay config) s2 = Returned r s'
  | GRACEFUL => False
  end.

(** The state after [Updates.reloadAsync] has been entered once. *)
Definition afterReloadCall (s : State) : State :=
  {| exitAppCalls := exitAppCalls s;
     reloadCalls := S (reloadCalls s);
     timers := timers s;
     fatals := fatals s |}.

(** The state after one crash callback has been queued. *)
Definition afterSchedule (message : string) (delay : Z) (s : State) : State :=
  {| exitAppCalls := exitAppCalls s;
     reloadCalls := reloadCalls s;
     timers := timers s ++ [mkTimer delay message];
     fatals := fatals s |}.

(** Wording of V8's [TypeError]s, for the concrete runs below. *)
Definition v8Messages (site : TypeErrorSite) : string :=
  match site with
  | ReadExitAppOfNullish => "Cannot read properties of undefined (reading 'exitApp')"
  | CallExitApp => "BackHandler.exitApp is not a function"
  | CallReloadAsync => "Updates.reloadAsync is not a function"
  end.

(** An Android device with expo-updates enabled and working. *)
Definition android : Runtime :=
  {| BackHandler := ExitAppFunction Returns;
     Updates := {| isEnabled := true; reloadAsync := ReloadPromise Fulfils |};
     setTimeout := Returns;
     global := Global (Some true);
     typeErrorMessage := v8Messages |}.

(** A browser: no [exitApp], expo-updates replaced by the stub, no
    [ErrorUtils]. *)
Definition web : Runtime :=
  {| BackHandler := ExitAppNotCallable;
     Updates := UpdatesStub;
     setTimeout := Returns;
     global := Global None;
     typeErrorMessage := v8Messages |}.

(** expo-updates enabled, and a reload whose promise is never settled. *)
Definition reloadHangs : Runtime :=
  {| BackHandler := ExitAppFunction Returns;
     Updates := {| isEnabled := true; reloadAsync := ReloadPromise NeverSettles |};
     setTimeout := Returns;
     global := Global (Some true);
     typeErrorMessage := v8Messages |}.

(** [Updates.isEnabled] truthy although [reloadAsync] is no function. *)
Definition enabledWithoutReload : Runtime :=
  {| BackHandler := ExitAppFunction Returns;
     Updates := {| isEnabled := true; reloadAsync := ReloadNotCallable |};
     setTimeout := Returns;
     global := Global (Some true);
     typeErrorMessage := v8Messages |}.

(** A host whose [setTimeout] itself throws. *)
Definition brokenTimers : Runtime :=
  {| BackHandler := BackHandlerNullish;
     Updates := UpdatesStub;
     setTimeout := Throws (ErrorInstance "setTimeout is not available");
     global := GlobalUndefined;
     typeErrorMessage := v8Messages |}.

(** ** Options as the running code meets them *)

(** A key of the caller's options object.  [ExitOptions] above has a key
    absent or present with a value; the optional properties of the interface
    ([useReload?: boolean], ...) also admit a key that is present and holds
    [undefined], and the spread copies such a key like any other. *)
Inductive Key (A : Type) : Type :=
| Absent
| Undefined
| Value (a : A).

Arguments Absent {A}.
Arguments Undefined {A}.
Arguments Value {A} a.

Record ExitOptionsObject : Type := mkObject {
  key_errorMessage : Key string;
  key_useReload : Key bool;
  key_forceDelay : Key Z
}.

(** The record a spread over [defaultOptions] builds: every key present,
    [None] being the value [undefined]. *)
Record MergedOptions : Type := mkMerged {
  merged_errorMessage : option string;
  merged_useReload : option bool;
  merged_forceDelay : option Z
}.

Module AtRunTime.

(** [defaultOptions] with its three values. *)
Definition present (config : RequiredExitOptions) : MergedOptions :=
  {| merged_errorMessage := Some (req_errorMessage config);
     merged_useReload := Some (req_useReload config);
     merged_forceDelay := Some (req_forceDelay config) |}.

(** One key of [{ ...base, ...options }]: a key present in [options] is
    copied with whatever it holds, [undefined] included. *)
Definition spreadKey {A} (base : option A) (key : Key A) : option A :=
  match key with
  | Absent => base
  | Undefined => None
  | Value a => Some a
  end.

Definition spread (base : MergedOptions) (options : ExitOptionsObject)
  : MergedOptions :=
  {| merged_errorMessage :=
       spreadKey (merged_errorMessage base) (key_errorMessage options);
     merged_useReload := spreadKey (merged_useReload base) (key_useReload options);
     merged_forceDelay :=
       spreadKey (merged_forceDelay base) (key_forceDelay options) |}.

(** A merged record passed on as an options object. *)
Definition asObject (config : MergedOptions) : ExitOptionsObject :=
  let key {A} (v : option A) : Key A :=
    match v with Some a => Value a | None => Undefined end in
  {| key_errorMessage := key (merged_errorMessage config);
     key_useReload := key (merged_useReload config);
     key_forceDelay := key (merged_forceDelay config) |}.

(** An [ExitOptions] record of the typed model as an object. *)
Definition ofTyped (options : ExitOptions) : ExitOptionsObject :=
  let key {A} (v : option A) : Key A :=
    match v with Some a => Value a | None => Absent end in
  {| key_errorMessage := key (errorMessage options);
     key_useReload := key (useReload options);
     key_forceDelay := key (forceDelay options) |}.

Definition emptyObject : ExitOptionsObject :=
  {| key_errorMessage := Absent; key_useReload := Absent; key_forceDelay := Absent |}.

Definition orEmpty (options : option ExitOptionsObject) : ExitOptionsObject :=
  match options with Some o => o | None => emptyObject end.

(** How the strategy paths read the merged record: [if (config.useReload)]
    takes [undefined] as false, [new Error(undefined)] has the empty
    message, and [setTimeout(callback, undefined)] waits no time. *)
Definition readConfig (config : MergedOptions) : RequiredExitOptions :=
  {| req_errorMessage :=
       match merged_errorMessage config with Some m => m | None => "" end;
     req_useReload :=
       match merged_useReload config with Some b => b | None => false end;
     req_forceDelay :=
       match merged_forceDelay config with Some d => d | None => 0%Z end |}.

(** [exitWithStrategy] and [exit] on an options object. *)
Definition exitWithStrategy (rt : Runtime) (strategy : ExitStrategy)
  (options : option ExitOptionsObject) : M ExitResult :=
  let config := spread (present ExitApp.defaultOptions) (orEmpty options) in
  ExitApp.containErrors strategy (ExitApp.dispatch rt strategy (readConfig config)).

Definition exit (rt : Runtime) (options : option ExitOptionsObject)
  : M ExitResult :=
  let config := spread (present ExitApp.defaultOptions) (orEmpty options) in
  exitWithStrategy rt GRACEFUL (Some (asObject config)).

End AtRunTime.

(** ** The rest of the code: module set-up, the hook, the demo screen *)

(** The state a call leaves behind, however it ended. *)
Definition stateOf {A} (o : Outcome A) : State :=
  match o with
  | Returned _ s => s
  | Raised _ s => s
  | Suspended s => s
  end.

(** Lines 15-22 of [ExitApp.ts]: [Updates = require('expo-updates')], or
    the stub when the [require] throws ([None]). *)
Definition loadUpdates (required : option UpdatesModule) : UpdatesModule :=
  match required with
  | Some module => module
  | None => UpdatesStub
  end.

(** The string values of [enum ExitStrategy] ([types.ts], lines 16-25). *)
Definition ExitStrategy_value (strategy : ExitStrategy) : string :=
  match strategy with
  | BACK_HANDLER => "backHandler"
  | RELOAD => "reload"
  | FORCE_CRASH => "forceCrash"
  | GRACEFUL => "graceful"
  end.

(** [Object.values(ExitStrategy)]: the members in declaration order. *)
Definition ExitStrategy_values : list ExitStrategy :=
  [BACK_HANDLER; RELOAD; FORCE_CRASH; GRACEFUL].

(** [array.includes(strategy)]. *)
Definition includes (strategies : list ExitStrategy) (strategy : ExitStrategy)
  : bool :=
  existsb (ExitStrategy_eqb strategy) strategies.

(** *** [src/hooks.ts] *)

Module Hooks.

(** What [useExitApp()] returns. *)
Record ExitAppCallbacks : Type := mkCallbacks {
  exit : option ExitOptions -> M ExitResult;
  exitWithStrategy : ExitStrategy -> option ExitOptions -> M ExitResult;
  isBackHandlerSupported : unit -> bool;
  isReloadSupported : unit -> bool;
  getSupportedStrategies : unit -> list ExitStrategy
}.

Definition useExitApp (rt : Runtime) : ExitAppCallbacks :=
  {| exit := fun options => ExitApp.exit rt options;
     exitWithStrategy :=
       fun strategy options => ExitApp.exitWithStrategy rt strategy options;
     isBackHandlerSupported := fun _ => ExitApp.isBackHandlerSupported rt;
     isReloadSupported := fun _ => ExitApp.isReloadSupported rt;
     getSupportedStrategies := fun _ => ExitApp.getSupportedStrategies rt |}.

End Hooks.

(** *** [example/App.tsx] *)

Module App.

(** The two buttons of the confirmation dialogs: [Cancel] has no
    [onPress], [Exit] runs the handler. *)
Inductive AlertButton : Type :=
| Cancel
| Exit.

(** What [renderButton] is given: the title and the background colour. *)
Record Button : Type := mkButton {
  title : string;
  color : string
}.

Section Component.

Variable rt : Runtime.

(** The component state [lastResult] is passed in and the new value is
    handed back; [setLastResult(result)] is the [Some result]. *)
Definition handleGracefulExit (pressed : AlertButton)
  (lastResult : option ExitResult) : M (option ExitResult) :=
  match pressed with
  | Cancel => ret lastResult
  | Exit =>
      result <- Hooks.exit (Hooks.useExitApp rt)
                  (Some {| errorMessage := Some "User requested graceful exit";
                           useReload := Some true;
                           forceDelay := Some 100%Z |}) ;;
      ret (Some result)
  end.

Definition handleStrategyExit (strategy : ExitStrategy) (pressed : AlertButton)
  (lastResult : option ExitResult) : M (option ExitResult) :=
  match pressed with
  | Cancel => ret lastResult
  | Exit =>
      result <- Hooks.exitWithStrategy (Hooks.useExitApp rt) strategy
                  (Some {| errorMessage :=
                             Some ("User requested "
                                   ++ ExitStrategy_value strategy ++ " exit")%string;
                           useReload := None;
                           forceDelay := None |}) ;;
      ret (Some result)
  end.

(** The title of the dialog of [handleStrategyExit]. *)
Definition strategyDialogTitle (strategy : ExitStrategy) : string :=
  let strategyNames :=
    match strategy with
    | BACK_HANDLER => "BackHandler"
    | RELOAD => "Reload"
    | FORCE_CRASH => "Force Crash"
    | GRACEFUL => "Graceful"
    end in
  (strategyNames ++ " Exit")%string.

Definition renderStrategyButton (supportedStrategies : list ExitStrategy)
  (strategy : ExitStrategy) : Button :=
  let isSupported := includes supportedStrategies strategy in
  let strategyNames :=
    match strategy with
    | BACK_HANDLER => "BackHandler Exit"
    | RELOAD => "Reload Exit"
    | FORCE_CRASH => "Force Crash Exit"
    | GRACEFUL => "Graceful Exit"
    end in
  {| title := (strategyNames ++ " " ++ (if isSupported then "✅" else "❌"))%string;
     color := if isSupported then "#007AFF" else "#999999" |}.

(** The list the effect of lines 25-27 stores in [supportedStrategies]. *)
Definition supportedStrategiesAfterEffect : list ExitStrategy :=
  Hooks.getSupportedStrategies (Hooks.useExitApp rt) tt.

End Component.

End App.

(** Case analysis on every shape the runtime can have, running the call
    in each. *)
Ltac on_every_runtime rt :=
  destruct rt as [[| |[|?]] [[|] [|?|[|?|]]] [|?] ? ?]; cbn.

(** Reads a handed-back result off an evaluated call. *)
Ltac read_result :=
  intros;
  unfold ret in *;
  repeat match goal with
         | H : Returned _ _ = Returned _ _ |- _ => injection H as <- <-
         | H : Suspended _ = Returned _ _ |- _ => discriminate H
         | H : Raised _ _ = Returned _ _ |- _ => discriminate H
         end;
  cbn in *.

(** ** Concrete runs *)

Example android_graceful_reloads :
  ExitApp.exit android None initialState
  = Returned {| success := true; strategy := RELOAD; error := None |}
             (afterReloadCall initialState).
Proof. reflexivity. Qed.

Example web_graceful_crashes :
  ExitApp.exit web None initialState
  = Returned {| success := true; strategy := FORCE_CRASH; error := None |}
             (afterSchedule "App terminated" 100 initialState).
Proof. reflexivity. Qed.

Example web_crash_is_uncaught :
  fatals (ExitApp.runTimers web (afterSchedule "App terminated" 100 initialState))
  = [UncaughtError "App terminated"].
Proof. reflexivity. Qed.

Example web_strategies :
  ExitApp.getSupportedStrategies web = [FORCE_CRASH; GRACEFUL].
Proof. reflexivity. Qed.

Example android_strategies :
  ExitApp.getSupportedStrategies android
  = [FORCE_CRASH; BACK_HANDLER; RELOAD; GRACEFUL].
Proof. reflexivity. Qed.

(** ** The handlers, one at a time *)

(** [exitWithBackHandler] always hands back a result tagged
    [BACK_HANDLER]; it touches nothing but the [exitApp] counter. *)
Lemma exitWithBackHandler_returns rt s :
  exists r s',
    ExitApp.exitWithBackHandler rt s = Returned r s'
    /\ strategy r = BACK_HANDLER
    /\ errorIffFailed r
    /\ reloadCalls s' = reloadCalls s
    /\ timers s' = timers s
    /\ fatals s' = fatals s.
Proof.
  unfold ExitApp.exitWithBackHandler, tryCatch, bind, ret, ExitApp.callExitApp,
    errorIffFailed.
  destruct (BackHandler rt) as [| |[|e]]; cbn;
    eexists; eexists; (split; [reflexivity|]); cbn;
    repeat split; intros; try congruence; try (destruct H; congruence);
    eauto.
Qed.

(** Without a callable [exitApp] the handler fails and the state is the one
    it started from. *)
Lemma exitWithBackHandler_unsupported rt s :
  ExitApp.isBackHandlerSupported rt = false ->
  exists reason,
    ExitApp.exitWithBackHandler rt s
    = Returned {| success := false; strategy := BACK_HANDLER; error := Some reason |} s.
Proof.
  unfold ExitApp.isBackHandlerSupported, ExitApp.exitWithBackHandler, tryCatch,
    bind, ret, ExitApp.callExitApp.
  destruct (BackHandler rt); intros H; try discriminate; cbn; eauto.
Qed.

(** [exitWithForceCrash] always hands back a result tagged [FORCE_CRASH]
    and never runs a primitive or a callback. *)
Lemma exitWithForceCrash_returns rt message delay s :
  exists r s',
    ExitApp.exitWithForceCrash rt message delay s = Returned r s'
    /\ strategy r = FORCE_CRASH
    /\ errorIffFailed r
    /\ exitAppCalls s' = exitAppCalls s
    /\ reloadCalls s' = reloadCalls s
    /\ fatals s' = fatals s.
Proof.
  unfold ExitApp.exitWithForceCrash, tryCatch, bind, ret, ExitApp.scheduleCrash,
    errorIffFailed.
  destruct (setTimeout rt) as [|e]; cbn;
    eexists; eexists; (split; [reflexivity|]); cbn;
    repeat split; intros; try congruence; try (destruct H; congruence);
    eauto.
Qed.

(** [exitWithReload] hands back a result tagged [RELOAD], or stays
    suspended at its [await]; the latter needs an enabled [Updates] whose
    promise never settles. *)
Lemma exitWithReload_cases rt s :
  (exists r s',
     ExitApp.exitWithReload rt s = Returned r s'
     /\ strategy r = RELOAD
     /\ errorIffFailed r
     /\ exitAppCalls s' = exitAppCalls s
     /\ timers s' = timers s
     /\ fatals s' = fatals s)
  \/ (ExitApp.exitWithReload rt s = Suspended (afterReloadCall s)
      /\ isEnabled (Updates rt) = true
      /\ reloadAsync (Updates rt) = ReloadPromise NeverSettles).
Proof.
  unfold ExitApp.exitWithReload, tryCatch, bind, ret, ExitApp.awaitReloadAsync,
    errorIffFailed.
  destruct (isEnabled (Updates rt)); cbn.
  2:{ left. eexists; eexists; (split; [reflexivity|]); cbn.
      repeat split; intros; try congruence; eauto. }
  destruct (reloadAsync (Updates rt)) as [|e|[|e|]]; cbn;
    try (left; eexists; eexists; (split; [reflexivity|]); cbn;
         repeat split; intros; try congruence; try (destruct H; congruence);
         eauto; fail).
  right. repeat split.
Qed.

(** The fallback chain hands back a leaf result, or stays suspended in the
    reload step. *)
Lemma exitGracefully_cases rt config s :
  (exists r s',
     ExitApp.exitGracefully rt config s = Returned r s'
     /\ isLeaf (strategy r) = true
     /\ errorIffFailed r)
  \/ (ExitApp.exitGracefully rt config s = Suspended (afterReloadCall s)
      /\ req_useReload config = true
      /\ isEnabled (Updates rt) = true
      /\ reloadAsync (Updates rt) = ReloadPromise NeverSettles).
Proof.
  assert (Hfallback : forall s0, exists r s',
    (backHandlerResult <- ExitApp.exitWithBackHandler rt ;;
     if success backHandlerResult then ret backHandlerResult
     else ExitApp.exitWithForceCrash rt (req_errorMessage config)
            (req_forceDelay config)) s0 = Returned r s'
    /\ isLeaf (strategy r) = true /\ errorIffFailed r).
  { intros s0. unfold bind.
    destruct (exitWithBackHandler_returns rt s0) as (b & s1 & -> & Hb & Hwf & _).
    destruct (success b) eqn:Hs.
    - exists b, s1. unfold ret. rewrite Hb. auto.
    - destruct (exitWithForceCrash_returns rt (req_errorMessage config)
                  (req_forceDelay config) s1) as (c & s2 & -> & Hc & Hwfc & _).
      exists c, s2. rewrite Hc. auto. }
  unfold ExitApp.exitGracefully.
  destruct (req_useReload config).
  2:{ left. apply Hfallback. }
  destruct (exitWithReload_cases rt s) as [(r & s1 & H & Hr & Hwf & _)|(H & He & Hp)].
  - unfold bind at 1. rewrite H.
    destruct (success r) eqn:Hs.
    + left. exists r, s1. unfold ret. rewrite Hr. auto.
    + left. apply Hfallback.
  - right. unfold bind at 1. rewrite H. auto.
Qed.

(** Nothing escapes the switch of [exitWithStrategy]: each handler has a
    [try]/[catch] of its own. *)
Lemma dispatch_cases rt requested config s :
  (exists r s',
     ExitApp.dispatch rt requested config s = Returned r s'
     /\ errorIffFailed r
     /\ (requested = GRACEFUL -> isLeaf (strategy r) = true))
  \/ (ExitApp.dispatch rt requested config s = Suspended (afterReloadCall s)
      /\ reloadAsync (Updates rt) = ReloadPromise NeverSettles).
Proof.
  destruct requested; cbn [ExitApp.dispatch].
  - destruct (exitWithBackHandler_returns rt s) as (r & s' & H & _ & Hwf & _).
    left. exists r, s'. split; [exact H | split; [exact Hwf | discriminate]].
  - destruct (exitWithReload_cases rt s) as [(r & s' & H & _ & Hwf & _)|(H & _ & Hp)].
    + left. exists r, s'. split; [exact H | split; [exact Hwf | discriminate]].
    + right. auto.
  - destruct (exitWithForceCrash_returns rt (req_errorMessage config)
                (req_forceDelay config) s) as (r & s' & H & _ & Hwf & _).
    left. exists r, s'. split; [exact H | split; [exact Hwf | discriminate]].
  - destruct (exitGracefully_cases rt config s)
      as [(r & s' & H & Hl & Hwf)|(H & _ & _ & Hp)].
    + left. exists r, s'. auto.
    + right. auto.
Qed.

(** Spreading the defaults under a record that has every key gives that
    record back. *)
Lemma spread_asOptions base config :
  ExitApp.spread base (ExitApp.asOptions config) = config.
Proof. destruct config; reflexivity. Qed.

(** Both graceful entry points run the same computation. *)
Lemma exit_runs_the_graceful_dispatch rt options s :
  ExitApp.exit rt options s = ExitApp.exitWithStrategy rt GRACEFUL options s.
Proof.
  unfold ExitApp.exit.
  unfold ExitApp.exitWithStrategy at 1.
  cbn [ExitApp.orEmpty]. rewrite spread_asOptions. reflexivity.
Qed.

(** ** Options *)

(** The spread of an options object whose keys all hold a value or are
    absent is the spread of the typed model. *)
Lemma spread_ofTyped base options :
  AtRunTime.spread (AtRunTime.present base) (AtRunTime.ofTyped options)
  = AtRunTime.present (ExitApp.spread base options).
Proof. destruct options as [[m|] [u|] [d|]]; reflexivity. Qed.

Lemma readConfig_present config :
  AtRunTime.readConfig (AtRunTime.present config) = config.
Proof. destruct config; reflexivity. Qed.

(** Merging the defaults under an already merged object changes nothing. *)
Lemma spread_asObject base config :
  AtRunTime.spread base (AtRunTime.asObject config) = config.
Proof. destruct config as [[m|] [u|] [d|]]; reflexivity. Qed.

(** [{useReload: undefined}] on a device where the reload would work: the
    merged [useReload] is [undefined], the chain skips the reload and exits
    through [BackHandler.exitApp]. *)
Example undefined_useReload_skips_the_reload :
  AtRunTime.exit android
    (Some {| key_errorMessage := Absent;
             key_useReload := Undefined;
             key_forceDelay := Absent |}) initialState
  = Returned {| success := true; strategy := BACK_HANDLER; error := None |}
      {| exitAppCalls := 1; reloadCalls := 0; timers := []; fatals := [] |}.
Proof. reflexivity. Qed.

(** [{errorMessage: undefined}]: the crash is queued with the empty
    message, not with "App terminated". *)
Example undefined_errorMessage_crashes_with_the_empty_message :
  AtRunTime.exitWithStrategy web FORCE_CRASH
    (Some {| key_errorMessage := Undefined;
             key_useReload := Absent;
             key_forceDelay := Absent |}) initialState
  = Returned {| success := true; strategy := FORCE_CRASH; error := None |}
      (afterSchedule "" 100 initialState).
Proof. reflexivity. Qed.

(** C9. Merging caller options over [defaultOptions].  For every options
    object the running code can be given (each key absent, present with
    [undefined], or present with a value): a key the caller left out takes
    the default ("App terminated", true, 100); a key the caller gave keeps
    what the caller gave, a present [undefined] included, which is copied
    over the default and not filled; [{forceDelay: 5}] merges to
    [{errorMessage: "App terminated", useReload: true, forceDelay: 5}]; and
    both entry points hand exactly this merged record to the strategy
    switch, also when the options argument is left out altogether.  On
    records without [undefined] keys this is the merge of the typed model
    ([ExitApp.spread]), for which the same facts hold. *)
Theorem merge_fills_omitted_fields_from_defaults
  (options : ExitOptions) (object : ExitOptionsObject) :
  let config := ExitApp.spread ExitApp.defaultOptions options in
  let merged :=
    AtRunTime.spread (AtRunTime.present ExitApp.defaultOptions) object in
  ((req_errorMessage config
      = match errorMessage options with Some m => m | None => "App terminated" end
    /\ req_useReload config
      = match useReload options with Some b => b | None => true end
    /\ req_forceDelay config
      = match forceDelay options with Some d => d | None => 100%Z end)
   /\ ExitApp.spread ExitApp.defaultOptions
        {| errorMessage := None; useReload := None; forceDelay := Some 5%Z |}
      = {| req_errorMessage := "App terminated";
           req_useReload := true;
           req_forceDelay := 5%Z |}
   /\ (forall rt requested s,
         ExitApp.exitWithStrategy rt requested (Some options) s
         = ExitApp.containErrors requested (ExitApp.dispatch rt requested config) s)
   /\ (forall rt s,
         ExitApp.exit rt (Some options) s
         = ExitApp.containErrors GRACEFUL (ExitApp.dispatch rt GRACEFUL config) s)
   /\ (forall rt requested s,
         ExitApp.exitWithStrategy rt requested None s
         = ExitApp.containErrors requested
             (ExitApp.dispatch rt requested ExitApp.defaultOptions) s))
  /\ (merged_errorMessage merged
       = match key_errorMessage object with
         | Absent => Some "App terminated"
         | Undefined => None
         | Value m => Some m
         end
      /\ merged_useReload merged
         = match key_useReload object with
           | Absent => Some true
           | Undefined => None
           | Value b => Some b
           end
      /\ merged_forceDelay merged
         = match key_forceDelay object with
           | Absent => Some 100%Z
           | Undefined => None
           | Value d => Some d
           end)
  /\ AtRunTime.spread (AtRunTime.present ExitApp.defaultOptions)
       {| key_errorMessage := Absent;
          key_useReload := Absent;
          key_forceDelay := Value 5%Z |}
     = {| merged_errorMessage := Some "App terminated";
          merged_useReload := Some true;
          merged_forceDelay := Some 5%Z |}
  /\ (forall rt requested s,
        AtRunTime.exitWithStrategy rt requested (Some object) s
        = ExitApp.containErrors requested
            (ExitApp.dispatch rt requested (AtRunTime.readConfig merged)) s)
  /\ (forall rt s,
        AtRunTime.exit rt (Some object) s
        = ExitApp.containErrors GRACEFUL
            (ExitApp.dispatch rt GRACEFUL (AtRunTime.readConfig merged)) s)
  /\ (forall rt requested s,
        AtRunTime.exitWithStrategy rt requested None s
        = ExitApp.containErrors requested
            (ExitApp.dispatch rt requested ExitApp.defaultOptions) s
        /\ AtRunTime.exit rt None s
           = ExitApp.containErrors GRACEFUL
               (ExitApp.dispatch rt GRACEFUL ExitApp.defaultOptions) s)
  /\ (AtRunTime.spread (AtRunTime.present ExitApp.defaultOptions)
        (AtRunTime.ofTyped options)
      = AtRunTime.present config
      /\ forall rt requested s,
           AtRunTime.exitWithStrategy rt requested
             (Some (AtRunTime.ofTyped options)) s
           = ExitApp.exitWithStrategy rt requested (Some options) s).
Proof.
  cbv zeta.
  split; [repeat split|].
  split; [destruct object as [[| |m] [| |u] [| |d]]; repeat split|].
  split; [reflexivity|].
  split; [intros rt requested s; reflexivity|].
  split.
  { intros rt s. unfold AtRunTime.exit, AtRunTime.exitWithStrategy.
    cbn [AtRunTime.orEmpty]. rewrite spread_asObject. reflexivity. }
  split; [intros rt requested s; split; reflexivity|].
  split; [apply spread_ofTyped|].
  intros rt requested s.
  unfold AtRunTime.exitWithStrategy, ExitApp.exitWithStrategy.
  cbn [AtRunTime.orEmpty ExitApp.orEmpty].
  rewrite spread_ofTyped, readConfig_present. reflexivity.
Qed.

(** C10. The convenience entry point [exit] and
    [exitWithStrategy(GRACEFUL, ...)] give the same outcome (result and
    effects) for the same options, left out or not, in the same runtime
    and state. *)
Theorem exit_is_exitWithStrategy_GRACEFUL
  (rt : Runtime) (options : option ExitOptions) (s : State) :
  ExitApp.exit rt options s = ExitApp.exitWithStrategy rt GRACEFUL options s.
Proof.
  unfold ExitApp.exit.
  unfold ExitApp.exitWithStrategy at 1.
  cbn [ExitApp.orEmpty].
  (* merging the defaults under an already merged record changes nothing *)
  rewrite spread_asOptions. reflexivity.
Qed.

(** ** Capability probes *)

(** C8. [getSupportedStrategies] is [FORCE_CRASH], then [BACK_HANDLER] when
    [isBackHandlerSupported], then [RELOAD] when [isReloadSupported], then
    [GRACEFUL]: force-crash is first, graceful is last, each conditional
    entry is present exactly when its probe is true, and with both present
    the list is [FORCE_CRASH; BACK_HANDLER; RELOAD; GRACEFUL]. *)
Theorem getSupportedStrategies_shape (rt : Runtime) :
  let strategies := ExitApp.getSupportedStrategies rt in
  strategies
    = [FORCE_CRASH]
        ++ (if ExitApp.isBackHandlerSupported rt then [BACK_HANDLER] else [])
        ++ (if ExitApp.isReloadSupported rt then [RELOAD] else [])
        ++ [GRACEFUL]
  /\ hd_error strategies = Some FORCE_CRASH
  /\ last strategies FORCE_CRASH = GRACEFUL
  /\ In FORCE_CRASH strategies
  /\ In GRACEFUL strategies
  /\ (In BACK_HANDLER strategies <-> ExitApp.isBackHandlerSupported rt = true)
  /\ (In RELOAD strategies <-> ExitApp.isReloadSupported rt = true)
  /\ (ExitApp.isBackHandlerSupported rt = true ->
      ExitApp.isReloadSupported rt = true ->
      strategies = [FORCE_CRASH; BACK_HANDLER; RELOAD; GRACEFUL]).
Proof.
  unfold ExitApp.getSupportedStrategies.
  destruct (ExitApp.isBackHandlerSupported rt), (ExitApp.isReloadSupported rt);
    cbn; repeat split; intros; auto;
    try discriminate;
    repeat match goal with
           | H : _ \/ _ |- _ => destruct H
           | H : False |- _ => destruct H
           end;
    try discriminate; auto.
Qed.

(** ** Single strategies *)

(** C7. When [isBackHandlerSupported] is false, i.e. [BackHandler.exitApp]
    is no callable function, [exitWithStrategy(BACK_HANDLER, ...)] resolves
    to a failed result tagged [BACK_HANDLER], and the state is the one
    before the call: the primitive did not run. *)
Theorem backHandler_unsupported_reports_failure
  (rt : Runtime) (options : option ExitOptions) (s : State) :
  ExitApp.isBackHandlerSupported rt = false ->
  exists reason,
    ExitApp.exitWithStrategy rt BACK_HANDLER options s
    = Returned {| success := false; strategy := BACK_HANDLER; error := Some reason |} s.
Proof.
  intros H.
  destruct (exitWithBackHandler_unsupported rt s H) as [reason Hr].
  exists reason.
  unfold ExitApp.exitWithStrategy, ExitApp.containErrors, tryCatch.
  cbn [ExitApp.dispatch]. rewrite Hr. reflexivity.
Qed.

Lemma backHandler_unsupported_reports_failure_on_web :
  exists reason,
    ExitApp.exitWithStrategy web BACK_HANDLER None initialState
    = Returned {| success := false; strategy := BACK_HANDLER; error := Some reason |}
               initialState.
Proof.
  apply (backHandler_unsupported_reports_failure web None initialState).
  reflexivity.
Defined.

(** The top-level [catch] leaves alone whatever does not raise. *)
Lemma containErrors_returned requested (body : M ExitResult) s r s' :
  body s = Returned r s' ->
  ExitApp.containErrors requested body s = Returned r s'.
Proof. intros H. unfold ExitApp.containErrors, tryCatch. rewrite H. reflexivity. Qed.

Lemma containErrors_suspended requested (body : M ExitResult) s s' :
  body s = Suspended s' ->
  ExitApp.containErrors requested body s = Suspended s'.
Proof. intros H. unfold ExitApp.containErrors, tryCatch. rewrite H. reflexivity. Qed.

(** The strategy switch never raises, so the top-level [catch] is never
    entered. *)
Lemma containErrors_dispatch rt requested config s :
  ExitApp.containErrors requested (ExitApp.dispatch rt requested config) s
  = ExitApp.dispatch rt requested config s.
Proof.
  destruct (dispatch_cases rt requested config s) as [(r & s' & H & _)|(H & _)].
  - rewrite H. apply containErrors_returned. exact H.
  - rewrite H. apply containErrors_suspended. exact H.
Qed.

Lemma exitWithStrategy_unfold rt requested options s :
  ExitApp.exitWithStrategy rt requested options s
  = ExitApp.dispatch rt requested
      (ExitApp.spread ExitApp.defaultOptions (ExitApp.orEmpty options)) s.
Proof. unfold ExitApp.exitWithStrategy. apply containErrors_dispatch. Qed.

(** The reload strategy on a runtime whose [Updates.isEnabled] is truthy
    while [reloadAsync] is not callable: the probe says unsupported, the
    handler reports the engine's [TypeError]. *)
Lemma reload_unsupported_reports_TypeError :
  ExitApp.isReloadSupported enabledWithoutReload = false
  /\ ExitApp.exitWithStrategy enabledWithoutReload RELOAD None initialState
     = Returned {| success := false;
                   strategy := RELOAD;
                   error := Some "Updates.reloadAsync is not a function" |}
                initialState
  /\ ExitApp.exitWithStrategy enabledWithoutReload RELOAD None initialState
     <> Returned {| success := false;
                    strategy := RELOAD;
                    error := Some "Updates not enabled" |}
                 initialState.
Proof.
  split; [reflexivity|]. split; [reflexivity|].
  cbv. discriminate.
Qed.

(** C3, as the code has it. [exitWithReload] tests [Updates.isEnabled]
    only.  When it is falsy, [exitWithStrategy(RELOAD, ...)] resolves to
    [{success: false, strategy: RELOAD, error: "Updates not enabled"}] and
    the state is the one before the call (no primitive ran).  When
    [isReloadSupported] is false for whatever reason, the call still resolves
    to a failed result tagged [RELOAD] in an unchanged state; with
    [isEnabled] truthy and [reloadAsync] not callable its [error] is the
    message of the [TypeError] that the attempted call raises. *)
Theorem reload_not_enabled_reports_failure
  (rt : Runtime) (options : option ExitOptions) (s : State) :
  (isEnabled (Updates rt) = false ->
   ExitApp.exitWithStrategy rt RELOAD options s
   = Returned {| success := false;
                 strategy := RELOAD;
                 error := Some "Updates not enabled" |} s)
  /\ (ExitApp.isReloadSupported rt = false ->
      exists reason,
        ExitApp.exitWithStrategy rt RELOAD options s
        = Returned {| success := false; strategy := RELOAD; error := Some reason |} s)
  /\ (isEnabled (Updates rt) = true ->
      reloadAsync (Updates rt) = ReloadNotCallable ->
      ExitApp.exitWithStrategy rt RELOAD options s
      = Returned {| success := false;
                    strategy := RELOAD;
                    error := Some (typeErrorMessage rt CallReloadAsync) |} s).
Proof.
  unfold ExitApp.exitWithStrategy, ExitApp.containErrors, ExitApp.isReloadSupported.
  cbn [ExitApp.dispatch].
  unfold ExitApp.exitWithReload, ExitApp.awaitReloadAsync, tryCatch, bind, ret.
  repeat split.
  - intros ->. reflexivity.
  - destruct (isEnabled (Updates rt)); cbn.
    + destruct (reloadAsync (Updates rt)); intros H; try discriminate.
      cbn. eauto.
    + intros _. eauto.
  - intros -> ->. reflexivity.
Qed.

Lemma reload_not_enabled_reports_failure_on_web :
  ExitApp.exitWithStrategy web RELOAD None initialState
  = Returned {| success := false;
                strategy := RELOAD;
                error := Some "Updates not enabled" |} initialState.
Proof.
  apply (proj1 (reload_not_enabled_reports_failure web None initialState)).
  reflexivity.
Defined.

(** The spec's force-crash example, in a browser: the call hands back
    success with the callback still queued and no fatal error delivered;
    the error carrying "X" shows up once the timers run. *)
Example forceCrash_X_0_on_web :
  let options := Some {| errorMessage := Some "X";
                         useReload := None;
                         forceDelay := Some 0%Z |} in
  ExitApp.exitWithStrategy web FORCE_CRASH options initialState
  = Returned {| success := true; strategy := FORCE_CRASH; error := None |}
             {| exitAppCalls := 0; reloadCalls := 0;
                timers := [mkTimer 0 "X"]; fatals := [] |}
  /\ fatals (ExitApp.runTimers web
               {| exitAppCalls := 0; reloadCalls := 0;
                  timers := [mkTimer 0 "X"]; fatals := [] |})
     = [UncaughtError "X"].
Proof. split; reflexivity. Qed.

(** C4. With [message] and [delay] the merged [errorMessage] and
    [forceDelay]: if [setTimeout] returns, [exitWithStrategy(FORCE_CRASH,
    ...)] hands back [{success: true, strategy: FORCE_CRASH}] at once, in a
    state where the crash callback is queued with that delay and no fatal
    error has been delivered yet; the fatal error carrying [message]
    (reported through [ErrorUtils.reportFatalError] or thrown uncaught) is
    delivered by the later run of the timers.  If [setTimeout] itself
    throws, and only then, the call hands back a failed result tagged
    [FORCE_CRASH] with the thrown error's message, and nothing is queued. *)
Theorem forceCrash_reports_success_before_the_crash
  (rt : Runtime) (options : option ExitOptions) (s : State) :
  let config := ExitApp.spread ExitApp.defaultOptions (ExitApp.orEmpty options) in
  let message := req_errorMessage config in
  let delay := req_forceDelay config in
  let queued := afterSchedule message delay s in
  (setTimeout rt = Returns ->
   ExitApp.exitWithStrategy rt FORCE_CRASH options s
   = Returned {| success := true; strategy := FORCE_CRASH; error := None |} queued
   /\ timers queued = timers s ++ [mkTimer delay message]
   /\ fatals queued = fatals s
   /\ fatals (ExitApp.runTimers rt queued)
      = fatals (ExitApp.runTimers rt s) ++ [ExitApp.crashCallback rt message]
   /\ (ExitApp.crashCallback rt message = ReportedFatal message
       \/ ExitApp.crashCallback rt message = UncaughtError message))
  /\ (forall e, setTimeout rt = Throws e ->
      ExitApp.exitWithStrategy rt FORCE_CRASH options s
      = Returned {| success := false;
                    strategy := FORCE_CRASH;
                    error := Some (messageOr "Force crash failed" e) |} s)
  /\ (forall reload m d,
        options = Some {| errorMessage := Some m;
                          useReload := reload;
                          forceDelay := Some d |} ->
        message = m /\ delay = d).
Proof.
  cbv zeta.
  unfold ExitApp.exitWithStrategy, ExitApp.containErrors.
  cbn [ExitApp.dispatch].
  unfold ExitApp.exitWithForceCrash, ExitApp.scheduleCrash, tryCatch, bind, ret.
  split; [|split].
  - intros ->. cbn. repeat split.
    + rewrite map_app, app_assoc. reflexivity.
    + unfold ExitApp.crashCallback.
      destruct (global rt) as [|[[|]|]]; auto.
  - intros e ->. reflexivity.
  - intros reload m d ->. split; reflexivity.
Qed.

Lemma forceCrash_reports_success_before_the_crash_on_android :
  ExitApp.exitWithStrategy android FORCE_CRASH
    (Some {| errorMessage := Some "X"; useReload := None; forceDelay := Some 0%Z |})
    initialState
  = Returned {| success := true; strategy := FORCE_CRASH; error := None |}
             (afterSchedule "X" 0 initialState)
  /\ fatals (afterSchedule "X" 0 initialState) = []
  /\ fatals (ExitApp.runTimers android (afterSchedule "X" 0 initialState))
     = [ReportedFatal "X"]
  /\ ExitApp.exitWithStrategy brokenTimers FORCE_CRASH None initialState
     = Returned {| success := false;
                   strategy := FORCE_CRASH;
                   error := Some "setTimeout is not available" |} initialState.
Proof.
  destruct (forceCrash_reports_success_before_the_crash android
              (Some {| errorMessage := Some "X"; useReload := None;
                       forceDelay := Some 0%Z |}) initialState)
    as [Hok _].
  destruct (Hok eq_refl) as (Hres & _ & Hfatals & Hrun & _).
  destruct (forceCrash_reports_success_before_the_crash brokenTimers None
              initialState) as (_ & Hfail & _).
  split; [exact Hres|]. split; [exact Hfatals|]. split; [exact Hrun|].
  exact (Hfail _ eq_refl).
Defined.

(** ** The fallback chain *)

(** The fallback after the reload step: back-handler, then force-crash. *)
Lemma exitGracefully_after_reload_step rt config s s1 :
  reloadStepFallsThrough rt config s s1 ->
  ExitApp.exitGracefully rt config s
  = (backHandlerResult <- ExitApp.exitWithBackHandler rt ;;
     if success backHandlerResult then ret backHandlerResult
     else ExitApp.exitWithForceCrash rt (req_errorMessage config)
            (req_forceDelay config)) s1.
Proof.
  unfold reloadStepFallsThrough, ExitApp.exitGracefully.
  intros [[-> ->]|(-> & r & Hr & Hs)]; [reflexivity|].
  unfold bind at 1. rewrite Hr, Hs. reflexivity.
Qed.

(** C2. The graceful strategy runs reload, then back-handler, then
    force-crash, and stops at the first success.  With the merged
    [useReload] true and a successful reload, the reload result is handed
    back as it is, and neither [exitApp] has run nor a crash been queued.
    When the reload step was skipped or failed and the back-handler step
    fails, the outcome is that of the force-crash step run after them
    ([{success: true, strategy: FORCE_CRASH}] whenever [setTimeout]
    returns); when the back-handler step succeeds instead, its result is
    handed back and no crash is queued. *)
Theorem graceful_runs_the_chain_in_order
  (rt : Runtime) (options : option ExitOptions) (s : State) :
  let config := ExitApp.spread ExitApp.defaultOptions (ExitApp.orEmpty options) in
  (forall r s1,
     req_useReload config = true ->
     ExitApp.exitWithReload rt s = Returned r s1 ->
     success r = true ->
     ExitApp.exitWithStrategy rt GRACEFUL options s = Returned r s1
     /\ exitAppCalls s1 = exitAppCalls s
     /\ timers s1 = timers s
     /\ fatals s1 = fatals s)
  /\ (forall s1 b s2,
        reloadStepFallsThrough rt config s s1 ->
        ExitApp.exitWithBackHandler rt s1 = Returned b s2 ->
        success b = false ->
        ExitApp.exitWithStrategy rt GRACEFUL options s
        = ExitApp.exitWithForceCrash rt (req_errorMessage config)
            (req_forceDelay config) s2
        /\ (setTimeout rt = Returns ->
            ExitApp.exitWithStrategy rt GRACEFUL options s
            = Returned {| success := true; strategy := FORCE_CRASH; error := None |}
                (afterSchedule (req_errorMessage config) (req_forceDelay config) s2)))
  /\ (forall s1 b s2,
        reloadStepFallsThrough rt config s s1 ->
        ExitApp.exitWithBackHandler rt s1 = Returned b s2 ->
        success b = true ->
        ExitApp.exitWithStrategy rt GRACEFUL options s = Returned b s2
        /\ timers s2 = timers s1).
Proof.
  cbv zeta.
  set (config := ExitApp.spread ExitApp.defaultOptions (ExitApp.orEmpty options)).
  assert (Hentry : forall o,
            ExitApp.exitGracefully rt config s = o ->
            (forall e s', o <> Raised e s') ->
            ExitApp.exitWithStrategy rt GRACEFUL options s = o).
  { intros o Ho Hnr. unfold ExitApp.exitWithStrategy, ExitApp.containErrors, tryCatch.
    cbn [ExitApp.dispatch]. fold config. rewrite Ho.
    destruct o; try reflexivity. exfalso. eapply Hnr. reflexivity. }
  split; [|split].
  - intros r s1 Hu Hr Hs.
    split.
    + apply Hentry; [|discriminate].
      unfold ExitApp.exitGracefully. rewrite Hu.
      unfold bind at 1. rewrite Hr, Hs. reflexivity.
    + destruct (exitWithReload_cases rt s)
        as [(r' & s' & H & _ & _ & Hc & Ht & Hf)|(H & _)];
        rewrite H in Hr; [|discriminate].
      injection Hr as -> ->. auto.
  - intros s1 b s2 Hstep Hb Hs.
    assert (Hg : ExitApp.exitGracefully rt config s
                 = ExitApp.exitWithForceCrash rt (req_errorMessage config)
                     (req_forceDelay config) s2).
    { rewrite (exitGracefully_after_reload_step _ _ _ _ Hstep).
      unfold bind at 1. rewrite Hb, Hs. reflexivity. }
    destruct (exitWithForceCrash_returns rt (req_errorMessage config)
                (req_forceDelay config) s2) as (c & s3 & Hc & _).
    assert (Hpublic : ExitApp.exitWithStrategy rt GRACEFUL options s
                      = ExitApp.exitWithForceCrash rt (req_errorMessage config)
                          (req_forceDelay config) s2).
    { apply Hentry; [exact Hg|]. rewrite Hc. discriminate. }
    split; [exact Hpublic|].
    intros Ht. rewrite Hpublic.
    unfold ExitApp.exitWithForceCrash, ExitApp.scheduleCrash, tryCatch, bind, ret.
    rewrite Ht. reflexivity.
  - intros s1 b s2 Hstep Hb Hs.
    split.
    + apply Hentry; [|discriminate].
      rewrite (exitGracefully_after_reload_step _ _ _ _ Hstep).
      unfold bind at 1. rewrite Hb, Hs. reflexivity.
    + destruct (exitWithBackHandler_returns rt s1) as (b' & s' & H & _ & _ & _ & Ht & _).
      rewrite H in Hb. injection Hb as -> ->. exact Ht.
Qed.

Lemma graceful_runs_the_chain_in_order_runs :
  (ExitApp.exitWithStrategy android GRACEFUL None initialState
   = Returned {| success := true; strategy := RELOAD; error := None |}
       (afterReloadCall initialState)
   /\ exitAppCalls (afterReloadCall initialState) = 0
   /\ timers (afterReloadCall initialState) = []
   /\ fatals (afterReloadCall initialState) = [])
  /\ ExitApp.exitWithStrategy web GRACEFUL
       (Some {| errorMessage := None; useReload := Some false; forceDelay := None |})
       initialState
     = Returned {| success := true; strategy := FORCE_CRASH; error := None |}
         (afterSchedule "App terminated" 100 initialState).
Proof.
  split.
  - destruct (graceful_runs_the_chain_in_order android None initialState)
      as [Hreload _].
    exact (Hreload {| success := true; strategy := RELOAD; error := None |}
             (afterReloadCall initialState) eq_refl eq_refl eq_refl).
  - destruct (graceful_runs_the_chain_in_order web
                (Some {| errorMessage := None; useReload := Some false;
                         forceDelay := None |}) initialState)
      as (_ & Hcrash & _).
    destruct (Hcrash initialState
                {| success := false; strategy := BACK_HANDLER;
                   error := Some "BackHandler.exitApp is not a function" |}
                initialState (or_introl (conj eq_refl eq_refl)) eq_refl eq_refl)
      as [_ Hok].
    exact (Hok eq_refl).
Defined.

(** Whatever [exitGracefully] hands back is the result of the leaf
    handler it ran last. *)
Lemma exitGracefully_hands_back_the_executed_leaf rt config s r s' :
  ExitApp.exitGracefully rt config s = Returned r s' ->
  executedLeaf rt config s r s'.
Proof.
  assert (Hfallback : forall s1,
            reloadStepFallsThrough rt config s s1 ->
            (backHandlerResult <- ExitApp.exitWithBackHandler rt ;;
             if success backHandlerResult then ret backHandlerResult
             else ExitApp.exitWithForceCrash rt (req_errorMessage config)
                    (req_forceDelay config)) s1 = Returned r s' ->
            executedLeaf rt config s r s').
  { intros s1 Hstep Hf. unfold bind in Hf.
    destruct (exitWithBackHandler_returns rt s1) as (b & s2 & Hb & Htag & _).
    rewrite Hb in Hf. destruct (success b) eqn:Hs.
    - unfold ret in Hf. injection Hf as <- <-.
      unfold executedLeaf. rewrite Htag. exists s1. auto.
    - destruct (exitWithForceCrash_returns rt (req_errorMessage config)
                  (req_forceDelay config) s2) as (c & s3 & Hc & Hctag & _).
      pose proof Hc as Hc'. rewrite Hf in Hc'. injection Hc' as <- <-.
      unfold executedLeaf. rewrite Hctag. exists s1, b, s2. auto. }
  unfold ExitApp.exitGracefully. cbv zeta.
  destruct (req_useReload config) eqn:Hu.
  - unfold bind at 1.
    destruct (exitWithReload_cases rt s) as [(r0 & s0 & Hr & Htag & _)|(Hr & _)];
      rewrite Hr; [|discriminate].
    destruct (success r0) eqn:Hs.
    + unfold ret. intros H. injection H as <- <-.
      unfold executedLeaf. rewrite Htag. auto.
    + apply Hfallback. right. split; [exact Hu|]. exists r0. auto.
  - apply Hfallback. left. auto.
Qed.

(** C5. Whatever result a graceful request hands back, through
    [exitWithStrategy(GRACEFUL, ...)] or through [exit], is tagged [RELOAD],
    [BACK_HANDLER] or [FORCE_CRASH], never [GRACEFUL], and the tag is that
    of the leaf the chain actually ran last: the result and the state after
    the call are exactly those handed back by the handler of that strategy
    (the reload handler run first; the back-handler handler after the
    reload step was skipped or failed; the force-crash handler after the
    back-handler handler failed as well).  Such a result is handed back
    whenever the reload promise settles. *)
Theorem graceful_result_names_a_leaf
  (rt : Runtime) (options : option ExitOptions) (s : State) :
  let config := ExitApp.spread ExitApp.defaultOptions (ExitApp.orEmpty options) in
  (forall r s',
     ExitApp.exitWithStrategy rt GRACEFUL options s = Returned r s' ->
     (In (strategy r) [RELOAD; BACK_HANDLER; FORCE_CRASH] /\ strategy r <> GRACEFUL)
     /\ executedLeaf rt config s r s')
  /\ (forall r s',
        ExitApp.exit rt options s = Returned r s' ->
        (In (strategy r) [RELOAD; BACK_HANDLER; FORCE_CRASH]
         /\ strategy r <> GRACEFUL)
        /\ executedLeaf rt config s r s')
  /\ (reloadSettles rt ->
      exists r s',
        ExitApp.exitWithStrategy rt GRACEFUL options s = Returned r s'
        /\ ExitApp.exit rt options s = Returned r s'
        /\ In (strategy r) [RELOAD; BACK_HANDLER; FORCE_CRASH]
        /\ executedLeaf rt config s r s').
Proof.
  cbv zeta.
  assert (Hleaf : forall x, isLeaf x = true ->
            In x [RELOAD; BACK_HANDLER; FORCE_CRASH] /\ x <> GRACEFUL).
  { intros [| | |]; cbn; intros H; try discriminate; split;
      auto; discriminate. }
  assert (Hmain : forall r s',
     ExitApp.exitWithStrategy rt GRACEFUL options s = Returned r s' ->
     (In (strategy r) [RELOAD; BACK_HANDLER; FORCE_CRASH] /\ strategy r <> GRACEFUL)
     /\ executedLeaf rt
          (ExitApp.spread ExitApp.defaultOptions (ExitApp.orEmpty options)) s r s').
  { intros r s' H. rewrite exitWithStrategy_unfold in H.
    cbn [ExitApp.dispatch] in H. split.
    - apply Hleaf.
      destruct (exitGracefully_cases rt
                  (ExitApp.spread ExitApp.defaultOptions (ExitApp.orEmpty options)) s)
        as [(r0 & s0 & Hg & Hl & _)|(Hg & _)]; rewrite Hg in H; [|discriminate].
      injection H as <- _. exact Hl.
    - apply exitGracefully_hands_back_the_executed_leaf. exact H. }
  split; [exact Hmain|]. split.
  - intros r s'. rewrite exit_runs_the_graceful_dispatch. apply Hmain.
  - intros Hsettles.
    destruct (dispatch_cases rt GRACEFUL
                (ExitApp.spread ExitApp.defaultOptions (ExitApp.orEmpty options)) s)
      as [(r0 & s0 & Hd & _ & Hl)|(_ & Hp)]; [|contradiction].
    pose proof (containErrors_returned GRACEFUL _ _ _ _ Hd) as Hr.
    fold (ExitApp.exitWithStrategy rt GRACEFUL options) in Hr.
    exists r0, s0. split; [exact Hr|]. split.
    + rewrite exit_runs_the_graceful_dispatch. exact Hr.
    + split; [apply Hleaf; auto|]. apply (Hmain r0 s0 Hr).
Qed.

Lemma graceful_result_names_a_leaf_on_web :
  (In (strategy {| success := true; strategy := FORCE_CRASH; error := None |})
      [RELOAD; BACK_HANDLER; FORCE_CRASH]
   /\ strategy {| success := true; strategy := FORCE_CRASH; error := None |}
      <> GRACEFUL)
  /\ executedLeaf web ExitApp.defaultOptions initialState
       {| success := true; strategy := FORCE_CRASH; error := None |}
       (afterSchedule "App terminated" 100 initialState).
Proof.
  apply (proj1 (graceful_result_names_a_leaf web None initialState)
           {| success := true; strategy := FORCE_CRASH; error := None |}
           (afterSchedule "App terminated" 100 initialState)).
  reflexivity.
Defined.

(** ** Results *)

(** C6. In every result handed back by a strategy handler
    ([exitWithBackHandler], [exitWithReload], [exitWithForceCrash]), by the
    chain [exitGracefully] or by a public entry point, the [error] key is
    present exactly when [success] is false: a success carries no [error],
    a failure carries a reason string. *)
Theorem error_is_present_iff_failed (rt : Runtime) (r : ExitResult) :
  Produces rt r ->
  ((exists reason, error r = Some reason) <-> success r = false)
  /\ (success r = true -> error r = None).
Proof.
  intros Hp.
  assert (Hwf : errorIffFailed r).
  { destruct Hp as [s s' H|s s' H|message delay s s' H|config s s' H
                   |requested options s s' H|options s s' H].
    - destruct (exitWithBackHandler_returns rt s) as (r0 & s0 & H0 & _ & Hwf & _).
      rewrite H0 in H. injection H as <- _. exact Hwf.
    - destruct (exitWithReload_cases rt s) as [(r0 & s0 & H0 & _ & Hwf & _)|(H0 & _)];
        rewrite H0 in H; [|discriminate].
      injection H as <- _. exact Hwf.
    - destruct (exitWithForceCrash_returns rt message delay s)
        as (r0 & s0 & H0 & _ & Hwf & _).
      rewrite H0 in H. injection H as <- _. exact Hwf.
    - destruct (exitGracefully_cases rt config s)
        as [(r0 & s0 & H0 & _ & Hwf)|(H0 & _)];
        rewrite H0 in H; [|discriminate].
      injection H as <- _. exact Hwf.
    - unfold ExitApp.exitWithStrategy in H.
      destruct (dispatch_cases rt requested
                  (ExitApp.spread ExitApp.defaultOptions (ExitApp.orEmpty options)) s)
        as [(r0 & s0 & Hd & Hwf & _)|(Hd & _)].
      + rewrite (containErrors_returned _ _ _ _ _ Hd) in H.
        injection H as <- _. exact Hwf.
      + rewrite (containErrors_suspended _ _ _ _ Hd) in H. discriminate.
    - rewrite exit_runs_the_graceful_dispatch in H.
      unfold ExitApp.exitWithStrategy in H.
      destruct (dispatch_cases rt GRACEFUL
                  (ExitApp.spread ExitApp.defaultOptions (ExitApp.orEmpty options)) s)
        as [(r0 & s0 & Hd & Hwf & _)|(Hd & _)].
      + rewrite (containErrors_returned _ _ _ _ _ Hd) in H.
        injection H as <- _. exact Hwf.
      + rewrite (containErrors_suspended _ _ _ _ Hd) in H. discriminate. }
  split; [exact Hwf|].
  intros Hs. destruct (error r) as [reason|] eqn:He; [|reflexivity].
  assert (success r = false) by (apply Hwf; eauto).
  congruence.
Qed.

Lemma error_is_present_iff_failed_on_web :
  ((exists reason,
      error {| success := false; strategy := RELOAD;
               error := Some "Updates not enabled" |} = Some reason)
   <-> success {| success := false; strategy := RELOAD;
                  error := Some "Updates not enabled" |} = false)
  /\ (success {| success := false; strategy := RELOAD;
                 error := Some "Updates not enabled" |} = true ->
      error {| success := false; strategy := RELOAD;
               error := Some "Updates not enabled" |} = None).
Proof.
  apply (error_is_present_iff_failed web).
  apply (produced_by_exitWithReload web _ initialState initialState).
  reflexivity.
Defined.

(** ** Error containment *)




(** ** Beyond the entry points' contracts: effects *)

(** What one run of the switch can do to the outside world. *)
Lemma dispatch_effects rt requested config s :
  let s' := stateOf (ExitApp.dispatch rt requested config s) in
  fatals s' = fatals s
  /\ (exitAppCalls s' = exitAppCalls s \/ exitAppCalls s' = S (exitAppCalls s))
  /\ (reloadCalls s' = reloadCalls s \/ reloadCalls s' = S (reloadCalls s))
  /\ (timers s' = timers s
      \/ timers s'
         = timers s ++ [mkTimer (req_forceDelay config) (req_errorMessage config)]).
Proof.
  destruct requested, config as [m [|] d]; on_every_runtime rt; auto.
Qed.

(** X1. Whatever the strategy, the options, the runtime and the way the
    call ends (result or suspended [await]), one call of [exitWithStrategy]
    delivers no fatal error itself, runs [BackHandler.exitApp] at most
    once and [Updates.reloadAsync] at most once, and leaves the timer queue
    as it was or with one more entry at its end: the crash callback with
    the merged [forceDelay] and [errorMessage].  Queued timers are never
    removed. *)
Theorem exitWithStrategy_effects_are_bounded
  (rt : Runtime) (requested : ExitStrategy) (options : option ExitOptions)
  (s : State) :
  let config := ExitApp.spread ExitApp.defaultOptions (ExitApp.orEmpty options) in
  let s' := stateOf (ExitApp.exitWithStrategy rt requested options s) in
  fatals s' = fatals s
  /\ (exitAppCalls s' = exitAppCalls s \/ exitAppCalls s' = S (exitAppCalls s))
  /\ (reloadCalls s' = reloadCalls s \/ reloadCalls s' = S (reloadCalls s))
  /\ (timers s' = timers s
      \/ timers s'
         = timers s ++ [mkTimer (req_forceDelay config) (req_errorMessage config)]).
Proof.
  cbv zeta. rewrite exitWithStrategy_unfold. apply dispatch_effects.
Qed.

(** X2. Each single strategy touches its own primitive only:
    [BACK_HANDLER] never calls [reloadAsync] and queues nothing, [RELOAD]
    never calls [exitApp] and queues nothing, [FORCE_CRASH] calls neither
    primitive. *)
Theorem single_strategies_touch_only_their_primitive
  (rt : Runtime) (options : option ExitOptions) (s : State) :
  let sb := stateOf (ExitApp.exitWithStrategy rt BACK_HANDLER options s) in
  let sr := stateOf (ExitApp.exitWithStrategy rt RELOAD options s) in
  let sc := stateOf (ExitApp.exitWithStrategy rt FORCE_CRASH options s) in
  (reloadCalls sb = reloadCalls s /\ timers sb = timers s)
  /\ (exitAppCalls sr = exitAppCalls s /\ timers sr = timers s)
  /\ (exitAppCalls sc = exitAppCalls s /\ reloadCalls sc = reloadCalls s).
Proof.
  cbv zeta. rewrite !exitWithStrategy_unfold.
  on_every_runtime rt; auto.
Qed.

(** X3. A result handed back for a single strategy is tagged with the
    strategy that was asked for; only [GRACEFUL] is reported under another
    tag. *)
Theorem single_strategy_tags_its_result
  (rt : Runtime) (requested : ExitStrategy) (options : option ExitOptions)
  (s s' : State) (r : ExitResult) :
  requested <> GRACEFUL ->
  ExitApp.exitWithStrategy rt requested options s = Returned r s' ->
  strategy r = requested.
Proof.
  intros Hleaf. rewrite exitWithStrategy_unfold.
  destruct requested; try contradiction; cbn [ExitApp.dispatch]; intros H.
  - destruct (exitWithBackHandler_returns rt s) as (r0 & s0 & H0 & Ht & _).
    rewrite H0 in H. injection H as <- _. exact Ht.
  - destruct (exitWithReload_cases rt s) as [(r0 & s0 & H0 & Ht & _)|(H0 & _)];
      rewrite H0 in H; [|discriminate].
    injection H as <- _. exact Ht.
  - destruct (exitWithForceCrash_returns rt
                (req_errorMessage (ExitApp.spread ExitApp.defaultOptions
                                     (ExitApp.orEmpty options)))
                (req_forceDelay (ExitApp.spread ExitApp.defaultOptions
                                   (ExitApp.orEmpty options))) s)
      as (r0 & s0 & H0 & Ht & _).
    rewrite H0 in H. injection H as <- _. exact Ht.
Qed.

Lemma single_strategy_tags_its_result_on_web :
  strategy {| success := false; strategy := RELOAD;
              error := Some "Updates not enabled" |} = RELOAD.
Proof.
  apply (single_strategy_tags_its_result web RELOAD None initialState initialState).
  - discriminate.
  - reflexivity.
Defined.

(** X4. The top-level [catch] of [exitWithStrategy] is never entered: every
    handler catches what its primitive throws, so the call is exactly its
    strategy switch run on the merged options, and no result is ever built
    by the catch-all. *)
Theorem exitWithStrategy_never_enters_its_catch
  (rt : Runtime) (requested : ExitStrategy) (options : option ExitOptions)
  (s : State) :
  let config := ExitApp.spread ExitApp.defaultOptions (ExitApp.orEmpty options) in
  (forall e s', ExitApp.dispatch rt requested config s <> Raised e s')
  /\ ExitApp.exitWithStrategy rt requested options s
     = ExitApp.dispatch rt requested config s.
Proof.
  cbv zeta. split.
  - intros e s'.
    destruct (dispatch_cases rt requested
                (ExitApp.spread ExitApp.defaultOptions (ExitApp.orEmpty options)) s)
      as [(r & s0 & -> & _)|(-> & _)]; discriminate.
  - apply exitWithStrategy_unfold.
Qed.

(** A queue is never equal to itself with one more entry. *)
Lemma queue_grew (queue : list Timer) (t : Timer) : queue <> queue ++ [t].
Proof.
  intros H. apply (f_equal (@length Timer)) in H.
  rewrite length_app in H. cbn in H. lia.
Qed.

(** ** Beyond the entry points' contracts: what a result means *)

(** X5. [BACK_HANDLER] reports success exactly when [BackHandler.exitApp]
    is a function that returned normally.  When [exitApp] throws, it has
    run all the same, and the failure carries the thrown [Error]'s message,
    or "BackHandler failed" when the thrown value is no [Error]. *)
Theorem backHandler_success_iff_exitApp_returned
  (rt : Runtime) (options : option ExitOptions) (s s' : State) (r : ExitResult) :
  ExitApp.exitWithStrategy rt BACK_HANDLER options s = Returned r s' ->
  (success r = true <-> BackHandler rt = ExitAppFunction Returns)
  /\ (forall e,
        BackHandler rt = ExitAppFunction (Throws e) ->
        error r = Some (match e with
                        | ErrorInstance message => message
                        | NonError _ => "BackHandler failed"
                        end)
        /\ exitAppCalls s' = S (exitAppCalls s)).
Proof.
  rewrite exitWithStrategy_unfold.
  on_every_runtime rt; read_result;
    (split; [split; intros; congruence|]);
    intros thrown He; try discriminate;
    injection He as <-; split; reflexivity.
Qed.

Lemma backHandler_success_iff_exitApp_returned_on_android :
  (success {| success := true; strategy := BACK_HANDLER; error := None |} = true
   <-> BackHandler android = ExitAppFunction Returns)
  /\ (forall e,
        BackHandler android = ExitAppFunction (Throws e) ->
        error {| success := true; strategy := BACK_HANDLER; error := None |}
        = Some (match e with
                | ErrorInstance message => message
                | NonError _ => "BackHandler failed"
                end)
        /\ exitAppCalls {| exitAppCalls := 1; reloadCalls := 0;
                           timers := []; fatals := [] |}
           = S (exitAppCalls initialState)).
Proof.
  apply (backHandler_success_iff_exitApp_returned android None initialState).
  reflexivity.
Defined.

(** X6. [RELOAD] reports success exactly when [Updates.isEnabled] is truthy
    and the promise of [reloadAsync()] fulfils.  A [reloadAsync] that
    throws before returning and one whose promise rejects are reported
    alike: a failure carrying the [Error]'s message, or "Reload failed"
    for any other value, after one call of the primitive. *)
Theorem reload_success_iff_promise_fulfils
  (rt : Runtime) (options : option ExitOptions) (s s' : State) (r : ExitResult) :
  ExitApp.exitWithStrategy rt RELOAD options s = Returned r s' ->
  (success r = true
   <-> isEnabled (Updates rt) = true
       /\ reloadAsync (Updates rt) = ReloadPromise Fulfils)
  /\ (forall e,
        isEnabled (Updates rt) = true ->
        reloadAsync (Updates rt) = ReloadThrows e
        \/ reloadAsync (Updates rt) = ReloadPromise (Rejects e) ->
        r = {| success := false;
               strategy := RELOAD;
               error := Some (match e with
                              | ErrorInstance message => message
                              | NonError _ => "Reload failed"
                              end) |}
        /\ reloadCalls s' = S (reloadCalls s)).
Proof.
  rewrite exitWithStrategy_unfold.
  on_every_runtime rt; read_result;
    (split; [split; [intros; try discriminate; auto
                    |intros [? ?]; congruence]|]);
    intros thrown He [Hr|Hr]; try discriminate;
    injection Hr as <-; split; reflexivity.
Qed.

Lemma reload_success_iff_promise_fulfils_on_android :
  (success {| success := true; strategy := RELOAD; error := None |} = true
   <-> isEnabled (Updates android) = true
       /\ reloadAsync (Updates android) = ReloadPromise Fulfils)
  /\ (forall e,
        isEnabled (Updates android) = true ->
        reloadAsync (Updates android) = ReloadThrows e
        \/ reloadAsync (Updates android) = ReloadPromise (Rejects e) ->
        {| success := true; strategy := RELOAD; error := None |}
        = {| success := false;
             strategy := RELOAD;
             error := Some (match e with
                            | ErrorInstance message => message
                            | NonError _ => "Reload failed"
                            end) |}
        /\ reloadCalls (afterReloadCall initialState)
           = S (reloadCalls initialState)).
Proof.
  apply (reload_success_iff_promise_fulfils android None initialState).
  reflexivity.
Defined.

(** X7. The probes tell what the single strategies will do:
    [isBackHandlerSupported] is true exactly when [BACK_HANDLER] runs
    [exitApp], and [isReloadSupported] is true exactly when [RELOAD] runs
    [reloadAsync]. *)
Theorem probes_tell_whether_the_primitive_runs
  (rt : Runtime) (options : option ExitOptions) (s : State) :
  (ExitApp.isBackHandlerSupported rt = true
   <-> exitAppCalls (stateOf (ExitApp.exitWithStrategy rt BACK_HANDLER options s))
       = S (exitAppCalls s))
  /\ (ExitApp.isReloadSupported rt = true
      <-> reloadCalls (stateOf (ExitApp.exitWithStrategy rt RELOAD options s))
          = S (reloadCalls s)).
Proof.
  rewrite !exitWithStrategy_unfold.
  unfold ExitApp.isBackHandlerSupported, ExitApp.isReloadSupported.
  on_every_runtime rt;
    repeat split; intros; try reflexivity; try discriminate; try lia.
Qed.

(** ** Beyond the entry points' contracts: the fallback chain *)

(** X8. A graceful exit fails only when every step failed: a failed
    graceful result is tagged [FORCE_CRASH], [setTimeout] itself threw (the
    result carries that error's message, or "Force crash failed"),
    [exitApp] did not return normally and nothing was queued.  The errors
    of the reload and back-handler steps are not reported. *)
Theorem graceful_fails_only_when_setTimeout_throws
  (rt : Runtime) (options : option ExitOptions) (s s' : State) (r : ExitResult) :
  ExitApp.exitWithStrategy rt GRACEFUL options s = Returned r s' ->
  success r = false ->
  strategy r = FORCE_CRASH
  /\ (exists e,
        setTimeout rt = Throws e
        /\ error r = Some (messageOr "Force crash failed" e))
  /\ BackHandler rt <> ExitAppFunction Returns
  /\ timers s' = timers s.
Proof.
  rewrite exitWithStrategy_unfold.
  generalize (ExitApp.spread ExitApp.defaultOptions (ExitApp.orEmpty options)).
  intros [m [|] d];
    on_every_runtime rt; read_result; try discriminate;
    (split; [reflexivity|]);
    (split; [eexists; split; reflexivity|]);
    (split; [discriminate|reflexivity]).
Qed.

Lemma graceful_fails_only_when_setTimeout_throws_witness :
  strategy {| success := false; strategy := FORCE_CRASH;
              error := Some "setTimeout is not available" |} = FORCE_CRASH
  /\ (exists e,
        setTimeout brokenTimers = Throws e
        /\ error {| success := false; strategy := FORCE_CRASH;
                    error := Some "setTimeout is not available" |}
           = Some (messageOr "Force crash failed" e))
  /\ BackHandler brokenTimers <> ExitAppFunction Returns
  /\ timers initialState = timers initialState.
Proof.
  apply (graceful_fails_only_when_setTimeout_throws brokenTimers None
           initialState initialState); reflexivity.
Defined.

(** X9. With the merged [useReload] false, a graceful exit never calls
    [Updates.reloadAsync], never stays suspended (even where a reload would
    hang), and its result is never tagged [RELOAD]. *)
Theorem graceful_without_useReload_never_reloads
  (rt : Runtime) (options : option ExitOptions) (s : State) :
  req_useReload (ExitApp.spread ExitApp.defaultOptions (ExitApp.orEmpty options))
  = false ->
  exists r s',
    ExitApp.exitWithStrategy rt GRACEFUL options s = Returned r s'
    /\ reloadCalls s' = reloadCalls s
    /\ strategy r <> RELOAD.
Proof.
  rewrite exitWithStrategy_unfold.
  generalize (ExitApp.spread ExitApp.defaultOptions (ExitApp.orEmpty options)).
  intros [m u d] Hu. cbn in Hu. subst u.
  on_every_runtime rt; unfold ret;
    eexists; eexists; (split; [reflexivity|]); split;
    try reflexivity; discriminate.
Qed.

Lemma graceful_without_useReload_never_reloads_where_reload_hangs :
  exists r s',
    ExitApp.exitWithStrategy reloadHangs GRACEFUL
      (Some {| errorMessage := None; useReload := Some false; forceDelay := None |})
      initialState
    = Returned r s'
    /\ reloadCalls s' = reloadCalls initialState
    /\ strategy r <> RELOAD.
Proof.
  apply (graceful_without_useReload_never_reloads reloadHangs
           (Some {| errorMessage := None; useReload := Some false;
                    forceDelay := None |}) initialState).
  reflexivity.
Defined.

(** X10. The tag of a graceful result tells what happened.  [RELOAD]: a
    success, [reloadAsync] ran once, [exitApp] did not run, nothing queued.
    [BACK_HANDLER]: a success, [exitApp] ran once, nothing queued.
    [FORCE_CRASH]: [exitApp] did not return normally, and the result is a
    success exactly when the crash callback was queued. *)
Theorem graceful_tag_tells_what_ran
  (rt : Runtime) (options : option ExitOptions) (s s' : State) (r : ExitResult) :
  let config := ExitApp.spread ExitApp.defaultOptions (ExitApp.orEmpty options) in
  ExitApp.exitWithStrategy rt GRACEFUL options s = Returned r s' ->
  (strategy r = RELOAD ->
   success r = true
   /\ reloadCalls s' = S (reloadCalls s)
   /\ exitAppCalls s' = exitAppCalls s
   /\ timers s' = timers s)
  /\ (strategy r = BACK_HANDLER ->
      success r = true
      /\ exitAppCalls s' = S (exitAppCalls s)
      /\ timers s' = timers s)
  /\ (strategy r = FORCE_CRASH ->
      BackHandler rt <> ExitAppFunction Returns
      /\ (success r = true
          <-> timers s'
              = timers s
                  ++ [mkTimer (req_forceDelay config) (req_errorMessage config)])).
Proof.
  cbv zeta. rewrite exitWithStrategy_unfold.
  generalize (ExitApp.spread ExitApp.defaultOptions (ExitApp.orEmpty options)).
  intros [m [|] d];
    on_every_runtime rt; read_result;
    repeat split; intros; try discriminate; try reflexivity;
    match goal with
    | H : timers ?q = timers ?q ++ [_] |- _ => destruct (queue_grew _ _ H)
    end.
Qed.

Lemma graceful_tag_tells_what_ran_on_web :
  (strategy {| success := true; strategy := FORCE_CRASH; error := None |} = RELOAD ->
   success {| success := true; strategy := FORCE_CRASH; error := None |} = true
   /\ reloadCalls (afterSchedule "App terminated" 100 initialState)
      = S (reloadCalls initialState)
   /\ exitAppCalls (afterSchedule "App terminated" 100 initialState)
      = exitAppCalls initialState
   /\ timers (afterSchedule "App terminated" 100 initialState)
      = timers initialState)
  /\ (strategy {| success := true; strategy := FORCE_CRASH; error := None |}
      = BACK_HANDLER ->
      success {| success := true; strategy := FORCE_CRASH; error := None |} = true
      /\ exitAppCalls (afterSchedule "App terminated" 100 initialState)
         = S (exitAppCalls initialState)
      /\ timers (afterSchedule "App terminated" 100 initialState)
         = timers initialState)
  /\ (strategy {| success := true; strategy := FORCE_CRASH; error := None |}
      = FORCE_CRASH ->
      BackHandler web <> ExitAppFunction Returns
      /\ (success {| success := true; strategy := FORCE_CRASH; error := None |} = true
          <-> timers (afterSchedule "App terminated" 100 initialState)
              = timers initialState ++ [mkTimer 100 "App terminated"])).
Proof.
  apply (graceful_tag_tells_what_ran web None initialState).
  reflexivity.
Defined.

(** ** Beyond the entry points' contracts: probes, options, set-up *)

(** X11. [getSupportedStrategies] lists no strategy twice and has two
    entries plus one per probe that is true, so between two and four. *)
Theorem getSupportedStrategies_lists_each_strategy_once (rt : Runtime) :
  NoDup (ExitApp.getSupportedStrategies rt)
  /\ length (ExitApp.getSupportedStrategies rt)
     = 2 + (if ExitApp.isBackHandlerSupported rt then 1 else 0)
         + (if ExitApp.isReloadSupported rt then 1 else 0)
  /\ 2 <= length (ExitApp.getSupportedStrategies rt) <= 4.
Proof.
  unfold ExitApp.getSupportedStrategies.
  destruct (ExitApp.isBackHandlerSupported rt), (ExitApp.isReloadSupported rt);
    cbn; (split; [|split; [reflexivity|lia]]);
    repeat constructor; cbn; intuition discriminate.
Qed.

(** X12. When expo-updates cannot be loaded, the module runs on the stub:
    [isReloadSupported] is false, [RELOAD] is not listed, the reload
    strategy reports "Updates not enabled" without touching anything, and
    a graceful exit, whatever its options, hands back a result that is not
    tagged [RELOAD] without calling [reloadAsync]. *)
Theorem missing_expo_updates_disables_reload
  (rt : Runtime) (options : option ExitOptions) (s : State) :
  Updates rt = loadUpdates None ->
  ExitApp.isReloadSupported rt = false
  /\ ~ In RELOAD (ExitApp.getSupportedStrategies rt)
  /\ ExitApp.exitWithStrategy rt RELOAD options s
     = Returned {| success := false;
                   strategy := RELOAD;
                   error := Some "Updates not enabled" |} s
  /\ (exists r s',
        ExitApp.exitWithStrategy rt GRACEFUL options s = Returned r s'
        /\ reloadCalls s' = reloadCalls s
        /\ strategy r <> RELOAD).
Proof.
  intros Hstub. rewrite !exitWithStrategy_unfold.
  generalize (ExitApp.spread ExitApp.defaultOptions (ExitApp.orEmpty options)).
  intros [m u d].
  unfold ExitApp.getSupportedStrategies, ExitApp.isReloadSupported.
  destruct rt as [bh updates st g tm]. cbn in Hstub. subst updates.
  destruct bh as [| |[|?]], st as [|?], u; cbn; unfold ret;
    (split; [reflexivity|]);
    (split; [intuition discriminate|]);
    (split; [reflexivity|]);
    eexists; eexists; (split; [reflexivity|]);
    split; try reflexivity; discriminate.
Qed.

Lemma missing_expo_updates_disables_reload_on_web :
  ExitApp.isReloadSupported web = false
  /\ ~ In RELOAD (ExitApp.getSupportedStrategies web)
  /\ ExitApp.exitWithStrategy web RELOAD None initialState
     = Returned {| success := false;
                   strategy := RELOAD;
                   error := Some "Updates not enabled" |} initialState
  /\ (exists r s',
        ExitApp.exitWithStrategy web GRACEFUL None initialState = Returned r s'
        /\ reloadCalls s' = reloadCalls initialState
        /\ strategy r <> RELOAD).
Proof.
  apply (missing_expo_updates_disables_reload web None initialState).
  reflexivity.
Defined.

(** X13. The merge of lines 38 and 49: spreading no options leaves the
    base record alone, spreading a record that has every key replaces the
    base altogether, and merging the defaults again under an already merged
    record changes nothing (which is why [exit] may merge before
    [exitWithStrategy] merges again). *)
Theorem spread_identity_override_idempotence
  (base config : RequiredExitOptions) (options : ExitOptions) :
  ExitApp.spread base ExitApp.emptyOptions = base
  /\ ExitApp.spread base (ExitApp.asOptions config) = config
  /\ ExitApp.spread base (ExitApp.asOptions (ExitApp.spread base options))
     = ExitApp.spread base options.
Proof.
  split; [|split].
  - destruct base; reflexivity.
  - destruct config; reflexivity.
  - destruct base, options as [[m|] [u|] [d|]]; reflexivity.
Qed.

(** X14. Nothing cancels or replaces a queued crash: where [setTimeout]
    works, two force-crash calls in a row both report success and leave two
    callbacks queued behind the ones already there, in call order, each
    with its own merged message and delay. *)
Theorem force_crash_twice_queues_two_crashes
  (rt : Runtime) (first second : option ExitOptions) (s : State) :
  setTimeout rt = Returns ->
  let c1 := ExitApp.spread ExitApp.defaultOptions (ExitApp.orEmpty first) in
  let c2 := ExitApp.spread ExitApp.defaultOptions (ExitApp.orEmpty second) in
  (r1 <- ExitApp.exitWithStrategy rt FORCE_CRASH first ;;
   r2 <- ExitApp.exitWithStrategy rt FORCE_CRASH second ;;
   ret (r1, r2)) s
  = Returned ({| success := true; strategy := FORCE_CRASH; error := None |},
              {| success := true; strategy := FORCE_CRASH; error := None |})
      {| exitAppCalls := exitAppCalls s;
         reloadCalls := reloadCalls s;
         timers := timers s
                     ++ [mkTimer (req_forceDelay c1) (req_errorMessage c1);
                         mkTimer (req_forceDelay c2) (req_errorMessage c2)];
         fatals := fatals s |}.
Proof.
  intros Hst. cbv zeta.
  unfold bind. rewrite !exitWithStrategy_unfold. cbn [ExitApp.dispatch].
  unfold ExitApp.exitWithForceCrash, ExitApp.scheduleCrash, tryCatch, bind, ret.
  rewrite Hst. cbn. rewrite exitWithStrategy_unfold. cbn [ExitApp.dispatch].
  unfold ExitApp.exitWithForceCrash, ExitApp.scheduleCrash, tryCatch, bind, ret.
  rewrite Hst. cbn. rewrite <- app_assoc. reflexivity.
Qed.

Lemma force_crash_twice_queues_two_crashes_on_web :
  (r1 <- ExitApp.exitWithStrategy web FORCE_CRASH None ;;
   r2 <- ExitApp.exitWithStrategy web FORCE_CRASH
           (Some {| errorMessage := Some "again"; useReload := None;
                    forceDelay := Some 0%Z |}) ;;
   ret (r1, r2)) initialState
  = Returned ({| success := true; strategy := FORCE_CRASH; error := None |},
              {| success := true; strategy := FORCE_CRASH; error := None |})
      {| exitAppCalls := 0;
         reloadCalls := 0;
         timers := [mkTimer 100 "App terminated"; mkTimer 0 "again"];
         fatals := [] |}.
Proof.
  apply (force_crash_twice_queues_two_crashes web None
           (Some {| errorMessage := Some "again"; useReload := None;
                    forceDelay := Some 0%Z |}) initialState).
  reflexivity.
Defined.

(** X15. Options reach only the steps that read them: [BACK_HANDLER] and
    [RELOAD] behave the same under any two option records, [FORCE_CRASH]
    depends on the merged [errorMessage] and [forceDelay] but not on
    [useReload], and the result (not the queued timer) of [GRACEFUL]
    depends on the merged [useReload] only. *)
Theorem options_reach_only_the_steps_that_read_them
  (rt : Runtime) (o1 o2 : option ExitOptions) (s : State) :
  let c1 := ExitApp.spread ExitApp.defaultOptions (ExitApp.orEmpty o1) in
  let c2 := ExitApp.spread ExitApp.defaultOptions (ExitApp.orEmpty o2) in
  ExitApp.exitWithStrategy rt BACK_HANDLER o1 s
  = ExitApp.exitWithStrategy rt BACK_HANDLER o2 s
  /\ ExitApp.exitWithStrategy rt RELOAD o1 s
     = ExitApp.exitWithStrategy rt RELOAD o2 s
  /\ (req_errorMessage c1 = req_errorMessage c2 ->
      req_forceDelay c1 = req_forceDelay c2 ->
      ExitApp.exitWithStrategy rt FORCE_CRASH o1 s
      = ExitApp.exitWithStrategy rt FORCE_CRASH o2 s)
  /\ (req_useReload c1 = req_useReload c2 ->
      forall r1 s1 r2 s2,
        ExitApp.exitWithStrategy rt GRACEFUL o1 s = Returned r1 s1 ->
        ExitApp.exitWithStrategy rt GRACEFUL o2 s = Returned r2 s2 ->
        r1 = r2
        /\ exitAppCalls s1 = exitAppCalls s2
        /\ reloadCalls s1 = reloadCalls s2).
Proof.
  cbv zeta. rewrite !exitWithStrategy_unfold.
  generalize (ExitApp.spread ExitApp.defaultOptions (ExitApp.orEmpty o1)).
  generalize (ExitApp.spread ExitApp.defaultOptions (ExitApp.orEmpty o2)).
  intros [m2 u2 d2] [m1 u1 d1]. cbn [ExitApp.dispatch req_errorMessage
    req_forceDelay req_useReload].
  split; [reflexivity|]. split; [reflexivity|]. split.
  - intros -> ->. reflexivity.
  - intros ->. destruct u2; on_every_runtime rt; read_result;
      repeat split; reflexivity.
Qed.

(** ** The demo screen and the hook *)

Lemma includes_In strategies strategy :
  includes strategies strategy = true <-> In strategy strategies.
Proof.
  unfold includes. rewrite existsb_exists. split.
  - intros (x & Hin & Heq).
    destruct strategy, x; cbn in Heq; try discriminate; exact Hin.
  - intros Hin. exists strategy. split; [exact Hin|].
    destruct strategy; reflexivity.
Qed.

(** X16. On the demo screen the "Graceful Exit (Recommended)" button and
    the strategy button of [GRACEFUL] do the same thing, whichever dialog
    button is pressed: the message built from the enum value is the
    literal one, and the [useReload: true] and [forceDelay: 100] that the
    first passes are the defaults the second falls back to. *)
Theorem graceful_button_is_the_graceful_strategy_button
  (rt : Runtime) (pressed : App.AlertButton) (lastResult : option ExitResult)
  (s : State) :
  App.handleGracefulExit rt pressed lastResult s
  = App.handleStrategyExit rt GRACEFUL pressed lastResult s.
Proof.
  destruct pressed; [reflexivity|].
  unfold App.handleGracefulExit, App.handleStrategyExit, Hooks.useExitApp.
  cbn [Hooks.exit Hooks.exitWithStrategy].
  unfold bind.
  rewrite exit_runs_the_graceful_dispatch. reflexivity.
Qed.

(** X17. Pressing a strategy button of the demo screen: [Cancel] calls
    nothing and keeps [lastResult]; [Exit] either stores the result of
    [ExitApp.exitWithStrategy] for that strategy in [lastResult] or stays
    suspended in the reload; and the only timer it can queue is the crash
    callback with the default delay 100 and the message
    "User requested <enum value> exit". *)
Theorem strategy_button_press
  (rt : Runtime) (requested : ExitStrategy) (lastResult : option ExitResult)
  (s : State) :
  let message :=
    ("User requested " ++ ExitStrategy_value requested ++ " exit")%string in
  let after := App.handleStrategyExit rt requested App.Exit lastResult s in
  App.handleStrategyExit rt requested App.Cancel lastResult s
  = Returned lastResult s
  /\ ((exists r s',
         after = Returned (Some r) s'
         /\ ExitApp.exitWithStrategy rt requested
              (Some {| errorMessage := Some message;
                       useReload := None;
                       forceDelay := None |}) s
            = Returned r s'
         /\ (requested <> GRACEFUL -> strategy r = requested))
      \/ (after = Suspended (afterReloadCall s)
          /\ reloadAsync (Updates rt) = ReloadPromise NeverSettles))
  /\ (timers (stateOf after) = timers s
      \/ timers (stateOf after) = timers s ++ [mkTimer 100 message]).
Proof.
  cbv zeta. split; [reflexivity|].
  unfold App.handleStrategyExit, Hooks.useExitApp.
  cbn [Hooks.exitWithStrategy]. unfold bind.
  rewrite exitWithStrategy_unfold.
  destruct requested; cbn [ExitStrategy_value ExitApp.orEmpty];
    on_every_runtime rt; unfold ret; cbn;
    (split;
     [ first [ left; eexists; eexists;
               split; [reflexivity|];
               split; [reflexivity|];
               intros; first [reflexivity|congruence]
             | right; split; reflexivity ]
     | auto ]).
Qed.

(** X18. Once the effect has stored [getSupportedStrategies()], the
    strategy buttons of the demo screen show [FORCE_CRASH] and [GRACEFUL]
    as supported on every runtime, [BACK_HANDLER] and [RELOAD] exactly when
    their probes are true; the button is blue with a check mark when
    supported, grey with a cross when not, and its title starts with the
    title of the dialog it opens. *)
Theorem strategy_buttons_show_support (rt : Runtime) (strategy : ExitStrategy) :
  let button :=
    App.renderStrategyButton (App.supportedStrategiesAfterEffect rt) strategy in
  let supported :=
    match strategy with
    | FORCE_CRASH | GRACEFUL => true
    | BACK_HANDLER => ExitApp.isBackHandlerSupported rt
    | RELOAD => ExitApp.isReloadSupported rt
    end in
  App.color button = (if supported then "#007AFF" else "#999999")
  /\ App.title button
     = (App.strategyDialogTitle strategy ++ " "
        ++ (if supported then "✅" else "❌"))%string
  /\ (supported = true
      <-> In strategy (ExitApp.getSupportedStrategies rt)).
Proof.
  cbv zeta.
  unfold App.renderStrategyButton, App.supportedStrategiesAfterEffect,
    Hooks.useExitApp, App.strategyDialogTitle.
  cbn [Hooks.getSupportedStrategies App.color App.title].
  unfold ExitApp.getSupportedStrategies.
  destruct strategy,
    (ExitApp.isBackHandlerSupported rt), (ExitApp.isReloadSupported rt);
    cbn; repeat split; intros; auto; try discriminate;
    repeat match goal with
           | H : _ \/ _ |- _ => destruct H
           | H : False |- _ => destruct H
           end;
    try discriminate.
Qed.

(** X19. The fallback chain does not get past a reload that hangs: with
    the merged [useReload] true, [Updates.isEnabled] truthy and a
    [reloadAsync()] promise that never settles, [exit] and
    [exitWithStrategy(GRACEFUL, ...)] stay suspended after that one call of
    [reloadAsync]; [exitApp] is not called and no crash is queued. *)
Theorem graceful_does_not_get_past_a_hanging_reload
  (rt : Runtime) (options : option ExitOptions) (s : State) :
  req_useReload (ExitApp.spread ExitApp.defaultOptions (ExitApp.orEmpty options))
  = true ->
  isEnabled (Updates rt) = true ->
  reloadAsync (Updates rt) = ReloadPromise NeverSettles ->
  ExitApp.exitWithStrategy rt GRACEFUL options s = Suspended (afterReloadCall s)
  /\ ExitApp.exit rt options s = Suspended (afterReloadCall s)
  /\ exitAppCalls (afterReloadCall s) = exitAppCalls s
  /\ timers (afterReloadCall s) = timers s.
Proof.
  intros Hu He Hp.
  rewrite exit_runs_the_graceful_dispatch, exitWithStrategy_unfold.
  revert Hu.
  generalize (ExitApp.spread ExitApp.defaultOptions (ExitApp.orEmpty options)).
  intros [m u d] Hu. cbn in Hu. subst u.
  destruct rt as [bh [en ra] st g tm]. cbn in He, Hp. subst en ra.
  cbn. repeat split.
Qed.

Lemma graceful_does_not_get_past_a_hanging_reload_witness :
  ExitApp.exitWithStrategy reloadHangs GRACEFUL None initialState
  = Suspended (afterReloadCall initialState)
  /\ ExitApp.exit reloadHangs None initialState
     = Suspended (afterReloadCall initialState)
  /\ exitAppCalls (afterReloadCall initialState) = exitAppCalls initialState
  /\ timers (afterReloadCall initialState) = timers initialState.
Proof.
  apply (graceful_does_not_get_past_a_hanging_reload reloadHangs None initialState);
    reflexivity.
Defined.
